(** * libgaba (minialign): banded adaptive alignment engine, [gaba.c]

    A shallow embedding of the DP core of [src/gaba.c] and the properties
    of its fill / trace / arena / init entry points.

    Conventions.
    - C integers are [Z]; every conversion to a fixed-width type is written
      out with [s8], [s16], [s32], [s64] (signed) or [u8], [u32], [u64]
      (unsigned).
    - The two compile-time switches of the file, [MODEL] (LINEAR / AFFINE)
      and [BW] (16 / 32), are ordinary arguments.
    - A SIMD register is the list of its lanes, lane 0 first; an [int8_t]
      lane is kept in its signed form. *)

From Stdlib Require Import ZArith List Bool Lia.
From stdpp Require Import base gmap.
Import ListNotations.
Local Open Scope Z_scope.

(* ------------------------------------------------------------------ *)
(** ** Fixed-width integers *)

Definition u8  (x : Z) : Z := x mod 256.
Definition u32 (x : Z) : Z := x mod 2^32.
Definition u64 (x : Z) : Z := x mod 2^64.
Definition s8  (x : Z) : Z := (x + 128) mod 256 - 128.
Definition s16 (x : Z) : Z := (x + 2^15) mod 2^16 - 2^15.
Definition s32 (x : Z) : Z := (x + 2^31) mod 2^32 - 2^31.
Definition s64 (x : Z) : Z := (x + 2^63) mod 2^64 - 2^63.

(** saturation to the [int8_t] range (the [adds] / [subs] lane arithmetic) *)
Definition sat8 (x : Z) : Z := Z.max (-128) (Z.min 127 x).

Definition in_s8 (x : Z) : Prop := -128 <= x <= 127.
Definition in_s16 (x : Z) : Prop := -2^15 <= x <= 2^15 - 1.

(** [_roundup(x, base)] for a power-of-two [base], on 64-bit unsigned *)
Definition _roundup (x base : Z) : Z :=
  Z.land (u64 (x + base - 1)) (u64 (Z.lnot (base - 1))).

Definition MAX2 (x y : Z) : Z := if y <? x then x else y.
Definition MIN2 (x y : Z) : Z := if x <? y then x else y.

(** population count and trailing-zero count of a 64-bit word *)
Fixpoint popcnt_fuel (n : nat) (x : Z) : Z :=
  match n with
  | O => 0
  | S n' => Z.b2z (Z.odd x) + popcnt_fuel n' (Z.div2 x)
  end.
Definition popcnt (x : Z) : Z := popcnt_fuel 64 (u64 x).

Fixpoint tzcnt_fuel (n : nat) (x : Z) : Z :=
  match n with
  | O => 0
  | S n' => if Z.odd x then 0 else 1 + tzcnt_fuel n' (Z.div2 x)
  end.
Definition tzcnt (x : Z) : Z := tzcnt_fuel 64 (u64 x).

(* ------------------------------------------------------------------ *)
(** ** Compile-time configuration *)

Inductive gap_model := LINEAR | AFFINE.

Definition BLK_BASE : Z := 5.
Definition BLK : Z := 32.
Definition MIN_BULK_BLOCKS : Z := 32.
Definition MEM_ALIGN_SIZE : Z := 32.
Definition MEM_INIT_SIZE : Z := 256 * 1024 * 1024.
Definition MEM_MARGIN_SIZE : Z := 2048.
Definition PSUM_BASE : Z := 1.

(** [enum _STATE] *)
Definition CONT : Z := 0.
Definition UPDATE : Z := 0x0100.
Definition TERM : Z := 0x0200.

(** Modelled from the spec: [gaba.h] and [arch/] are not part of [src/].
    [GABA_STATUS_UPDATE_A] / [_B] are pinned to the two-lane compare masks
    by the [_static_assert]s at the head of [gaba.c]; the unit tests in
    [gaba.c] fix their values (status [0x10f] when only section A is
    consumed, [0x1f0] for B, [0x1ff] for both). *)
Definition V2I32_MASK_00 : Z := 0x00.
Definition V2I32_MASK_01 : Z := 0x0f.
Definition V2I32_MASK_10 : Z := 0xf0.
Definition V2I32_MASK_11 : Z := 0xff.
Definition GABA_STATUS_UPDATE_A : Z := V2I32_MASK_01.
Definition GABA_STATUS_UPDATE_B : Z := V2I32_MASK_10.

(** [sizeof(struct gaba_block_s)], from the [_static_assert]s *)
Definition sizeof_block (MODEL : gap_model) (BW : Z) : Z :=
  match MODEL with
  | LINEAR => if BW =? 16 then 256 else 448
  | AFFINE => if BW =? 16 then 384 else 704
  end.
Definition sizeof_phantom_block (BW : Z) : Z := if BW =? 16 then 128 else 192.
Definition sizeof_joint_tail : Z := 64.
Definition sizeof_mem_block : Z := 32.
Definition sizeof_dp_context : Z := 896.

(* ------------------------------------------------------------------ *)
(** ** Lane primitives

    Modelled from the spec: the vector macros of [arch/vector_alias.h]
    ([_add_n], [_bsl_n], [_shuf_n], ...) are not part of [src/]; each is
    given the meaning of the x86 instruction its name abbreviates, as the
    macros of [gaba.c] use them (8-bit lanes saturate on add / sub, masks
    are one bit per lane, [_bsl] / [_bsr] shift by whole lanes). *)

Definition vec := list Z.

Fixpoint map2 {A B C} (f : A -> B -> C) (a : list A) (b : list B) : list C :=
  match a, b with
  | x :: a', y :: b' => f x y :: map2 f a' b'
  | _, _ => []
  end.

Definition seqZ (n : Z) : list Z := map Z.of_nat (seq 0 (Z.to_nat n)).

Definition _zero_n (BW : Z) : vec := repeat 0 (Z.to_nat BW).
Definition _set_n (BW : Z) (x : Z) : vec := repeat (s8 x) (Z.to_nat BW).
Definition _add_n (a b : vec) : vec := map2 (fun x y => sat8 (x + y)) a b.
Definition _sub_n (a b : vec) : vec := map2 (fun x y => sat8 (x - y)) a b.
Definition _max_n (a b : vec) : vec := map2 Z.max a b.
Definition _and_n (a b : vec) : vec := map2 Z.land a b.
Definition _andn_n (a b : vec) : vec := map2 (fun x y => Z.land (Z.lnot x) y) a b.
Definition _or_n (a b : vec) : vec := map2 Z.lor a b.
Definition _eq_n (a b : vec) : vec := map2 (fun x y => if x =? y then -1 else 0) a b.
Definition _ext_n (v : vec) (i : Z) : Z := nth (Z.to_nat i) v 0.

(** one bit per lane: the sign bit of lane [i] goes to bit [i] *)
Fixpoint _mask_n (v : vec) : Z :=
  match v with
  | [] => 0
  | x :: v' => Z.b2z (x <? 0) + 2 * _mask_n v'
  end.

(** whole-register byte shifts: [_bsl] moves lane [i] to lane [i+1] *)
Definition _bsl_n (v : vec) : vec := 0 :: removelast v.
Definition _bsr_n (v : vec) : vec := tl v ++ [0].

(** byte shuffle: lane [i] of the result is [tbl[idx[i] & 15]], or [0]
    when the sign bit of [idx[i]] is set *)
Definition _shuf_n (tbl idx : vec) : vec :=
  map (fun i => if i <? 0 then 0 else nth (Z.to_nat (Z.land i 15)) tbl 0) idx.

Definition _swap_n (v : vec) : vec := rev v.

(** [_shl_n] / [_shr_n] shift inside 32-bit groups of four lanes, so bits
    cross the lane borders of a group; [gaba.c] masks the operands so that
    nothing crosses. *)
Definition word_of_bytes (b0 b1 b2 b3 : Z) : Z :=
  u8 b0 + 2^8 * u8 b1 + 2^16 * u8 b2 + 2^24 * u8 b3.
Definition byte_of_word (w i : Z) : Z := s8 (Z.shiftr w (8 * i)).

Fixpoint map_words (f : Z -> Z) (v : vec) : vec :=
  match v with
  | b0 :: b1 :: b2 :: b3 :: v' =>
      let w := f (word_of_bytes b0 b1 b2 b3) in
      byte_of_word w 0 :: byte_of_word w 1 :: byte_of_word w 2
        :: byte_of_word w 3 :: map_words f v'
  | _ => []
  end.
Definition _shl_n (v : vec) (k : Z) : vec := map_words (fun w => u32 (Z.shiftl w k)) v.
Definition _shr_n (v : vec) (k : Z) : vec := map_words (fun w => Z.shiftr w k) v.

(** 16-bit lanes ([wvec_t]) *)
Definition _cvt_n_w (v : vec) : vec := v.
Definition _add_w (a b : vec) : vec := map2 (fun x y => s16 (x + y)) a b.
Definition _set_w (BW : Z) (x : Z) : vec := repeat (s16 x) (Z.to_nat BW).
Definition _hmax_w (v : vec) : Z := fold_right Z.max (-2^15) v.

(** two 32-bit lanes ([v2i32_t]): lane 0 is the A side, lane 1 the B side *)
Definition v2 := (Z * Z)%type.
Definition _seta_v2i32 (hi lo : Z) : v2 := (s32 lo, s32 hi).
Definition _set_v2i32 (x : Z) : v2 := (s32 x, s32 x).
Definition _zero_v2i32 : v2 := (0, 0).
Definition _lo32 (v : v2) : Z := fst v.
Definition _hi32 (v : v2) : Z := snd v.
Definition lift2 (f : Z -> Z -> Z) (a b : v2) : v2 := (f (fst a) (fst b), f (snd a) (snd b)).
Definition _add_v2i32 := lift2 (fun x y => s32 (x + y)).
Definition _sub_v2i32 := lift2 (fun x y => s32 (x - y)).
Definition _max_v2i32 := lift2 Z.max.
Definition _min_v2i32 := lift2 Z.min.
Definition _and_v2i32 := lift2 Z.land.
Definition _andn_v2i32 := lift2 (fun x y => Z.land (Z.lnot x) y).
Definition _xor_v2i32 := lift2 Z.lxor.
Definition _eq_v2i32 := lift2 (fun x y => if x =? y then -1 else 0).
Definition _swap_v2i32 (v : v2) : v2 := (snd v, fst v).
Definition _sar_v2i32 (v : v2) (k : Z) : v2 := (Z.shiftr (fst v) k, Z.shiftr (snd v) k).
Definition _sel_v2i32 (m a b : v2) : v2 :=
  (if fst m <? 0 then fst a else fst b, if snd m <? 0 then snd a else snd b).
(** byte mask of the low eight bytes: four bits per 32-bit lane *)
Definition _mask_v2i32 (v : v2) : Z :=
  (if fst v <? 0 then V2I32_MASK_01 else 0) + (if snd v <? 0 then V2I32_MASK_10 else 0).

(* ------------------------------------------------------------------ *)
(** ** Data model ([struct]s of [gaba.c]) *)

(** [union gaba_dir_u], dynamic band *)
Record gaba_dir_u := mk_dir {
  dir_acc : Z;      (* int8_t: accumulator *)
  dir_array : Z     (* uint32_t: direction shift register *)
}.

(** [union gaba_mask_pair_u]: [e] / [f] exist in the affine build only *)
Record gaba_mask_pair_u := mk_mask {
  mask_h : Z; mask_v : Z; mask_e : Z; mask_f : Z
}.

(** [struct gaba_score_vec_s], with the four gap constants named *)
Record gaba_score_vec_s := mk_scv {
  scv_sb : vec;
  scv_adjh : Z; scv_adjv : Z; scv_ofsh : Z; scv_ofsv : Z
}.

(** [struct gaba_block_s] / [struct gaba_phantom_block_s]: a phantom block
    is a block without mask area.  [blk_mask] holds the mask pairs in the
    order they were written; [blk_md] is [None] until [fill_create_tail]
    stores the middle-delta pointer; [blk_pad] is the [_pad[32 - BW]] area,
    which no fill function writes. *)
Record gaba_block_s := mk_block {
  blk_mask : list gaba_mask_pair_u;
  blk_dh : vec; blk_dv : vec;
  blk_delta : vec; blk_max : vec;
  blk_dir : gaba_dir_u;
  blk_offset : Z;
  blk_aridx : Z; blk_bridx : Z;
  blk_md : option vec;
  blk_ch : vec;
  blk_pad : vec
}.

(** [struct gaba_joint_tail_s].  The blocks a fill writes sit in memory
    right below its tail ([_last_block(tail)] is the block that ends where the tail starts); the
    embedding keeps them with the tail: [t_blks] lists them newest first,
    ending in the phantom block. *)
#[warnings="-register-all"]
Inductive gaba_joint_tail_s := mk_tail {
  t_psum : Z; t_p : Z; t_ssum : Z;
  t_max : Z;
  t_stat : Z; t_rem_len : Z;
  t_tail : option gaba_joint_tail_s;
  t_apos : Z; t_bpos : Z;
  t_alen : Z; t_blen : Z;
  t_aid : Z; t_bid : Z;
  t_blks : list gaba_block_s
}.

Definition empty_block : gaba_block_s :=
  mk_block [] [] [] [] [] (mk_dir 0 0) 0 0 0 None [] [].

Definition _last_block (t : gaba_joint_tail_s) : gaba_block_s := hd empty_block (t_blks t).

(** [struct gaba_section_s] *)
Record gaba_section_s := mk_section { sec_id : Z; sec_len : Z; sec_base : Z }.

(** [struct gaba_mem_block_s]: header of an arena region *)
Record gaba_mem_block_s := mk_mem {
  mem_next : option Z; mem_prev : option Z; mem_size : Z
}.

(** [struct gaba_root_block_s] *)
Record gaba_root_block_s := mk_root { root_tail : gaba_joint_tail_s }.

(** [struct gaba_dp_context_s]: the template part that [gaba_init] fills
    and [gaba_dp_init] copies ([scv] .. [ph]) *)
Record gaba_dp_template_s := mk_tmpl {
  k_scv : gaba_score_vec_s;
  k_m : Z; k_x : Z; k_gi : Z; k_ge : Z;   (* int8_t *)
  k_tx : Z;                               (* int8_t *)
  k_tf : Z;                               (* uint8_t *)
  k_head_margin : Z; k_tail_margin : Z    (* uint8_t *)
}.

(** [struct gaba_context_s]: the template, the root block of this
    (MODEL, BW) instance and its middle-delta box *)
Record gaba_context_s := mk_ctx {
  ctx_k : gaba_dp_template_s;
  ctx_ph : gaba_root_block_s;
  ctx_md : vec
}.

(** Modelled from the spec: [struct gaba_params_s] is declared in [gaba.h],
    which is not part of [src/].  The fields are the ones [gaba.c] reads;
    a null [reserved] pointer is [None]. *)
Record gaba_params_s := mk_params {
  p_m : Z; p_x : Z; p_gi : Z; p_ge : Z;
  p_xdrop : Z;
  p_filter_thresh : Z;
  p_head_margin : Z; p_tail_margin : Z;
  p_reserved : option gaba_context_s
}.

(* ------------------------------------------------------------------ *)
(** ** Engine initialisation *)

(** [gaba_init_restore_default_params] *)
Definition restore (field default : Z) : Z := if u64 field =? 0 then default else field.

Definition gaba_init_restore_default_params (params : gaba_params_s) : gaba_params_s :=
  let all_zero := (p_m params =? 0) && (p_x params =? 0)
                  && (p_gi params =? 0) && (p_ge params =? 0) in
  let sc v := if all_zero then 1 else v in
  mk_params (sc (p_m params)) (sc (p_x params)) (sc (p_gi params)) (sc (p_ge params))
    (restore (p_xdrop params) 50)
    (restore (p_filter_thresh params) 0)
    (restore (p_head_margin params) 0)
    (restore (p_tail_margin params) 0)
    (p_reserved params).

(** [gaba_init_check_score]: [true] when the function returns non-zero,
    i.e. the score is not applicable *)
Definition gaba_init_check_score (MODEL : gap_model) (params : gaba_params_s) : bool :=
  let m := s8 (p_m params) in
  let ge := s8 (- p_ge params) in
  let gi := s8 (- p_gi params) in
  match MODEL with
  | LINEAR =>
      if 255 <? m - 2 * (ge + gi) then true
      else if 0 <? ge + gi then true
      else false
  | AFFINE =>
      if 31 <? m - 2 * (ge + gi) then true
      else if ge <? gi then true
      else if ge + gi <? -7 then true
      else false
  end.

(** [gaba_init_create_score_vector] *)
Definition gaba_init_create_score_vector (MODEL : gap_model) (params : gaba_params_s)
  : gaba_score_vec_s :=
  let m := s8 (p_m params) in
  let x := s8 (- p_x params) in
  let ge := s8 (- p_ge params) in
  let gi := s8 (- p_gi params) in
  let sb := s8 (x - 2 * (ge + gi)) :: repeat (s8 (m - 2 * (ge + gi))) 15 in
  match MODEL with
  | LINEAR => mk_scv sb (s8 0) (s8 0) (s8 (ge + gi)) (s8 (ge + gi))
  | AFFINE => mk_scv sb (s8 (- gi)) (s8 (- gi)) (s8 (- (ge + gi))) (s8 (ge + gi))
  end.

(** [gaba_init_create_dir_dynamic] *)
Definition gaba_init_create_dir_dynamic (MODEL : gap_model) (BW : Z) (params : gaba_params_s)
  : gaba_dir_u :=
  let m := s8 (p_m params) in
  let ge := s8 (- p_ge params) in
  let gi := s8 (- p_gi params) in
  let coef := match MODEL with
              | LINEAR => s16 (- m + 2 * (ge + gi))
              | AFFINE => s16 (- m + 2 * ge)
              end in
  let ofs := match MODEL with LINEAR => 0 | AFFINE => s16 gi end in
  let acc := (ofs + Z.quot (coef * BW) 2) - (ofs + coef * (Z.quot BW 2 - 1)) in
  mk_dir (s8 acc) 0x80000000.

(** write [x] at index [i] of an array *)
Definition set_nth (i : Z) (x : Z) (v : vec) : vec :=
  firstn (Z.to_nat i) v ++ x :: skipn (Z.to_nat i + 1) v.

(** the loops [for(i = 0; i < BW/2; i++) { a[i] = lo(i); a[BW/2 + i] = hi(i); }] *)
Definition two_halves (BW : Z) (lo hi : Z -> Z) : vec :=
  map lo (seqZ (Z.quot BW 2)) ++ map hi (seqZ (Z.quot BW 2)).

(** [gaba_init_create_small_delta]: [sd.delta] and [sd.max] get the same
    values in both models *)
Definition gaba_init_create_small_delta (BW : Z) : vec :=
  let relax := s8 (Z.quot (-128) BW) in
  two_halves BW (fun i => s8 (relax * (Z.quot BW 2 - i))) (fun i => s8 (relax * i)).

(** [gaba_init_fill_middle_delta] *)
Definition gaba_init_fill_middle_delta (MODEL : gap_model) (BW : Z) (params : gaba_params_s)
  : vec :=
  let m := s8 (p_m params) in
  let ge := s8 (- p_ge params) in
  let gi := s8 (- p_gi params) in
  let relax := s8 (Z.quot 128 BW) in
  let coef := match MODEL with
              | LINEAR => s16 (- m + 2 * (ge + gi) + relax)
              | AFFINE => s16 (- m + 2 * ge + relax)
              end in
  let ofs := match MODEL with LINEAR => 0 | AFFINE => s16 gi end in
  set_nth (Z.quot BW 2) 0
    (two_halves BW (fun i => s16 (ofs + coef * (Z.quot BW 2 - i)))
                   (fun i => s16 (ofs + coef * i))).

(** [gaba_init_create_diff_vectors]: the stored [diff.dh] / [diff.dv] *)
Definition gaba_init_create_diff_vectors (MODEL : gap_model) (BW : Z) (params : gaba_params_s)
  : vec * vec :=
  let m := s8 (p_m params) in
  let ge := s8 (- p_ge params) in
  let gi := s8 (- p_gi params) in
  let h := Z.quot BW 2 in
  match MODEL with
  | LINEAR =>
      let drop := 0 in
      let raise := s8 (m - 2 * (ge + gi)) in
      let dh := set_nth h raise (two_halves BW (fun _ => drop) (fun _ => raise)) in
      let dv := set_nth h raise (two_halves BW (fun _ => raise) (fun _ => drop)) in
      (dh, dv)
  | AFFINE =>
      let ofs_dh := s8 (- (ge + gi)) in
      let ofs_dv := s8 (- (ge + gi)) in
      let ofs_de := s8 (- gi) in
      let ofs_df := s8 (- gi) in
      let drop_dh := s8 (ge + ofs_dh) in
      let raise_dh := s8 (m - ge + ofs_dh) in
      let drop_dv := s8 (ge + ofs_dv) in
      let raise_dv := s8 (m - ge + ofs_dv) in
      let drop_de := s8 (gi + ofs_de) in
      let raise_de := ofs_de in
      let drop_df := s8 (gi + ofs_df) in
      let raise_df := ofs_df in
      let dh := set_nth h (s8 (raise_dh - gi))
                  (two_halves BW (fun _ => drop_dh) (fun _ => raise_dh)) in
      let dv := set_nth h (s8 (raise_dv - gi))
                  (two_halves BW (fun _ => raise_dv) (fun _ => drop_dv)) in
      let de := set_nth h drop_de (two_halves BW (fun _ => raise_de) (fun _ => drop_de)) in
      let df := set_nth h drop_df (two_halves BW (fun _ => drop_df) (fun _ => raise_df)) in
      (_add_n (_shl_n dh 3) de, _add_n (_shl_n dv 3) df)
  end.

(** [gaba_init_create_char_vector] *)
Definition gaba_init_create_char_vector (BW : Z) : vec := repeat 0 (Z.to_nat BW).

(** [gaba_init_fill_phantom]: the phantom block at the root and the root
    tail above it.  [md] is the box the block's [md] pointer refers to. *)
Definition gaba_init_fill_phantom (MODEL : gap_model) (BW : Z)
    (params_intl : gaba_params_s) (md : vec) : gaba_root_block_s :=
  let diff := gaba_init_create_diff_vectors MODEL BW params_intl in
  let sd := gaba_init_create_small_delta BW in
  let ph := mk_block []
              (fst diff) (snd diff)
              sd sd
              (gaba_init_create_dir_dynamic MODEL BW params_intl)
              0
              0 0
              (Some md)
              (gaba_init_create_char_vector BW)
              (repeat 0 (Z.to_nat (32 - BW))) in
  mk_root (mk_tail (PSUM_BASE - BW) 0 0
                   0
                   CONT 0
                   None
                   0 0 0 0
                   0xfffc 0xfffd
                   [ph]).

(** [gaba_init_fill_dp_context] *)
Definition gaba_init_fill_dp_context (MODEL : gap_model) (params_intl : gaba_params_s)
  : gaba_dp_template_s :=
  mk_tmpl (gaba_init_create_score_vector MODEL params_intl)
    (s8 (p_m params_intl))
    (s8 (- p_x params_intl))
    (match MODEL with LINEAR => 0 | AFFINE => s8 (- p_gi params_intl) end)
    (match MODEL with
     | LINEAR => s8 (- (p_gi params_intl + p_ge params_intl))
     | AFFINE => s8 (- p_ge params_intl)
     end)
    (s8 (p_xdrop params_intl))
    (u8 (p_filter_thresh params_intl))
    (u8 (_roundup (p_head_margin params_intl) MEM_ALIGN_SIZE))
    (u8 (_roundup (p_tail_margin params_intl) MEM_ALIGN_SIZE)).

(** [gaba_aligned_malloc] asks the host allocator, which may refuse: the
    host is an argument, [None] is a null pointer. *)
Definition host_allocator := Z -> option Z.
Definition gaba_aligned_malloc (host : host_allocator) (size align : Z) : option Z := host size.

Definition sizeof_context : Z := 1088.

(** [gaba_init]; [None] is the null return *)
Definition gaba_init (MODEL : gap_model) (BW : Z) (host : host_allocator)
    (params : option gaba_params_s) : option gaba_context_s :=
  match params with
  | None => None
  | Some params =>
      let params_intl := gaba_init_restore_default_params params in
      if gaba_init_check_score MODEL params_intl then None
      else
        let md := gaba_init_fill_middle_delta MODEL BW params_intl in
        let ph := gaba_init_fill_phantom MODEL BW params_intl md in
        match p_reserved params_intl with
        | None =>
            match gaba_aligned_malloc host sizeof_context MEM_ALIGN_SIZE with
            | None => None
            | Some _ =>
                Some (mk_ctx (gaba_init_fill_dp_context MODEL params_intl) ph md)
            end
        | Some ctx => Some (mk_ctx (ctx_k ctx) ph md)
        end
  end.

(* ------------------------------------------------------------------ *)
(** ** DP context and arena *)

(** What a DP context sees of the process around it: the caller's sequence
    bytes (read-only), the bytes that lie in arena memory nobody has
    written yet, and the host allocator. *)
Record world := mk_world {
  seq_mem : Z -> Z;
  junk : vec;
  host : host_allocator
}.

(** [struct gaba_dp_context_s]: arena pointers, the region headers (keyed
    by address), the sequence-reader work area and the loaded template.
    [r_buf] is [bufa], [bufb] and [_pad2] of [gaba_reader_work_s] laid
    out as in memory (128 bytes). *)
Record gaba_dp_context_s := mk_dp {
  stack_top : Z;
  stack_end : Z;
  curr_mem : Z;
  mems : gmap Z gaba_mem_block_s;
  r_alim : Z; r_blim : Z;
  r_atail : Z; r_btail : Z;
  r_alen : Z; r_blen : Z;
  r_aid : Z; r_bid : Z;
  r_plim : Z;
  r_buf : vec;
  dp_k : gaba_dp_template_s;
  dp_ph : gaba_root_block_s
}.

Definition set_stack (self : gaba_dp_context_s) (top end_ cur : Z)
    (ms : gmap Z gaba_mem_block_s) : gaba_dp_context_s :=
  mk_dp top end_ cur ms
    (r_alim self) (r_blim self) (r_atail self) (r_btail self)
    (r_alen self) (r_blen self) (r_aid self) (r_bid self) (r_plim self)
    (r_buf self) (dp_k self) (dp_ph self).

Definition set_stack_top (self : gaba_dp_context_s) (top : Z) : gaba_dp_context_s :=
  set_stack self top (stack_end self) (curr_mem self) (mems self).

Definition set_buf (self : gaba_dp_context_s) (buf : vec) : gaba_dp_context_s :=
  mk_dp (stack_top self) (stack_end self) (curr_mem self) (mems self)
    (r_alim self) (r_blim self) (r_atail self) (r_btail self)
    (r_alen self) (r_blen self) (r_aid self) (r_bid self) (r_plim self)
    buf (dp_k self) (dp_ph self).

(** [_dp_ctx_index(BW)] and the pointer offset of [_restore_dp_context] *)
Definition DP_CTX_MAX : Z := 2.
Definition _dp_ctx_index (BW : Z) : Z := DP_CTX_MAX - Z.shiftr BW 4.
Definition sizeof_opaque : Z := 32.

(** the header of the region the context currently allocates from *)
Definition curr_block (self : gaba_dp_context_s) : gaba_mem_block_s :=
  match mems self !! curr_mem self with
  | Some b => b
  | None => mk_mem None None 0
  end.

(** [gaba_dp_init]: the context lives at the head of its first region *)
Definition gaba_dp_init (BW : Z) (w : world) (ctx : gaba_context_s) (alim blim : Z)
  : option gaba_dp_context_s :=
  match gaba_aligned_malloc (host w) MEM_INIT_SIZE MEM_ALIGN_SIZE with
  | None => None
  | Some base =>
      let self := base + (DP_CTX_MAX - _dp_ctx_index BW) * sizeof_opaque in
      Some (mk_dp (self + sizeof_dp_context)
                  (self + MEM_INIT_SIZE - MEM_MARGIN_SIZE)
                  (self + 32)
                  {[ self + 32 := mk_mem None None MEM_INIT_SIZE ]}
                  alim blim 0 0 0 0 0 0 0
                  (repeat 0 128)
                  (ctx_k ctx) (ctx_ph ctx))
  end.

Definition GABA_SUCCESS : Z := 0.
Definition GABA_ERROR_OUT_OF_MEM : Z := -1.

(** [gaba_dp_add_stack]: the [size] argument is not used by the body.
    [None] is the [GABA_ERROR_OUT_OF_MEM] return. *)
Definition gaba_dp_add_stack (w : world) (self : gaba_dp_context_s) (size : Z)
  : option gaba_dp_context_s :=
  let cur := curr_block self in
  let linked :=
    match mem_next cur with
    | Some nxt => Some (nxt, mems self)
    | None =>
        let next_size := u64 (mem_size cur * 2) in
        match gaba_aligned_malloc (host w) next_size MEM_ALIGN_SIZE with
        | None => None
        | Some mem =>
            Some (mem,
                  <[ mem := mk_mem None (Some (curr_mem self)) next_size ]>
                    (<[ curr_mem self := mk_mem (Some mem) (mem_prev cur) (mem_size cur) ]>
                       (mems self)))
        end
    end in
  match linked with
  | None => None
  | Some (nxt, ms) =>
      let sz := match ms !! nxt with Some b => mem_size b | None => 0 end in
      Some (set_stack self (nxt + sizeof_mem_block) (nxt + sz - MEM_MARGIN_SIZE) nxt ms)
  end.

(** [gaba_dp_malloc]: the pointer returned and the new context; [None] is
    the null return *)
Definition gaba_dp_malloc (w : world) (self : gaba_dp_context_s) (size : Z)
  : option (Z * gaba_dp_context_s) :=
  let size := _roundup size MEM_ALIGN_SIZE in
  let grown :=
    if u64 (stack_end self - stack_top self) <? size
    then gaba_dp_add_stack w self size
    else Some self in
  match grown with
  | None => None
  | Some self' =>
      let top := stack_top self' + size in
      Some (top - size, set_stack_top self' top)
  end.

(** [gaba_dp_flush] *)
Definition gaba_dp_flush (BW : Z) (self : gaba_dp_context_s) (self_addr alim blim : Z)
  : gaba_dp_context_s :=
  let first := match mems self !! (self_addr + 32) with
               | Some b => mem_size b | None => 0 end in
  mk_dp (self_addr + sizeof_dp_context) (self_addr + first - MEM_MARGIN_SIZE)
    (self_addr + 32) (mems self)
    alim blim (r_atail self) (r_btail self)
    (r_alen self) (r_blen self) (r_aid self) (r_bid self) (r_plim self)
    (r_buf self) (dp_k self) (dp_ph self).

(** [struct gaba_stack_s] with [gaba_dp_save_stack] / [gaba_dp_flush_stack] *)
Record gaba_stack_s := mk_stack { stk_mem : Z; stk_top : Z; stk_end : Z }.

Definition gaba_dp_save_stack (w : world) (self : gaba_dp_context_s)
  : option (gaba_stack_s * gaba_dp_context_s) :=
  let saved := mk_stack (curr_mem self) (stack_top self) (stack_end self) in
  match gaba_dp_malloc w self 32 with
  | None => None
  | Some (_, self') => Some (saved, self')
  end.

Definition gaba_dp_flush_stack (self : gaba_dp_context_s) (stack : option gaba_stack_s)
  : gaba_dp_context_s :=
  match stack with
  | None => self
  | Some s => set_stack self (stk_top s) (stk_end s) (stk_mem s) (mems self)
  end.

(* ------------------------------------------------------------------ *)
(** ** Sequence reader *)

(** unaligned 32-byte load from the caller's memory *)
Definition _loadu_v32i8 (w : world) (addr : Z) : vec :=
  map (fun i => s8 (seq_mem w (addr + i))) (seqZ 32).

(** load [n] lanes at offset [ofs] of a byte array / store a register at
    offset [ofs] *)
Definition load_at (n ofs : Z) (buf : vec) : vec :=
  firstn (Z.to_nat n) (skipn (Z.to_nat ofs) buf).
Definition store_at (ofs : Z) (data buf : vec) : vec :=
  firstn (Z.to_nat ofs) buf ++ data ++ skipn (Z.to_nat ofs + length data) buf.

(** [_rev(pos, len)], [_rd_bufa], [_rd_bufb] as offsets into [r_buf] *)
Definition _rev (pos len : Z) : Z := u64 (len + u64 len - u64 pos - 1).
Definition _rd_buf_base (BW : Z) : Z := BLK + BW.
Definition _rd_bufa (BW pos len : Z) : Z := _rd_buf_base BW - pos - len.
Definition _rd_bufb (BW pos len : Z) : Z := _rd_buf_base BW + pos.

(** the complement table of [fill_load_seq_a] / [fill_load_seq_b] *)
Definition comp : vec :=
  [0x00; 0x08; 0x04; 0x0c; 0x02; 0x0a; 0x06; 0x0e;
   0x01; 0x09; 0x05; 0x0d; 0x03; 0x0b; 0x07; 0x0f].

(** [transpose_section_pair] and [fill_load_section] *)
Definition fill_load_section (self : gaba_dp_context_s) (a b : gaba_section_s) (plim : Z)
  : gaba_dp_context_s :=
  mk_dp (stack_top self) (stack_end self) (curr_mem self) (mems self)
    (r_alim self) (r_blim self)
    (u64 (sec_base a + s32 (sec_len a))) (u64 (sec_base b + s32 (sec_len b)))
    (s32 (sec_len a)) (s32 (sec_len b))
    (u32 (sec_id a)) (u32 (sec_id b))
    plim
    (r_buf self) (dp_k self) (dp_ph self).

(** [fill_load_seq_a] *)
Definition fill_load_seq_a (BW : Z) (w : world) (self : gaba_dp_context_s) (pos len : Z)
  : gaba_dp_context_s :=
  if pos <? r_alim self then
    let a := _loadu_v32i8 w (pos + (len - BLK)) in
    set_buf self (store_at (_rd_bufa BW BW len) (_swap_n a) (r_buf self))
  else
    let a := _loadu_v32i8 w (_rev pos (r_alim self) - (len - 1)) in
    set_buf self (store_at (_rd_bufa BW BW len) (_shuf_n comp a) (r_buf self)).

(** [fill_load_seq_b] *)
Definition fill_load_seq_b (BW : Z) (w : world) (self : gaba_dp_context_s) (pos len : Z)
  : gaba_dp_context_s :=
  if pos <? r_blim self then
    let b := _loadu_v32i8 w pos in
    set_buf self (store_at (_rd_bufb BW BW len) b (r_buf self))
  else
    let b := _loadu_v32i8 w (_rev pos (r_blim self) - (BLK - 1)) in
    set_buf self (store_at (_rd_bufb BW BW len) (_shuf_n comp (_swap_n b)) (r_buf self)).

(** the two nibble vectors of a char vector *)
Definition ch_a (BW : Z) (ch : vec) : vec := _and_n (_set_n BW 0x0f) ch.
Definition ch_b (BW : Z) (ch : vec) : vec := _and_n (_set_n BW 0x0f) (_shr_n ch 4).

(** the common tail of the three fetch functions: sequence A, the two
    vectors of the previous block, sequence B *)
Definition fetch_common (BW : Z) (w : world) (self : gaba_dp_context_s)
    (prev_ch : vec) (apos alen bpos blen : Z) : gaba_dp_context_s :=
  let a := ch_a BW prev_ch in
  let b := ch_b BW prev_ch in
  let self := fill_load_seq_a BW w self apos alen in
  let self := set_buf self (store_at (_rd_bufa BW 0 BW) a (r_buf self)) in
  let self := set_buf self (store_at (_rd_bufb BW 0 BW) b (r_buf self)) in
  fill_load_seq_b BW w self bpos blen.

(** [fill_bulk_fetch]; [prev] is the block [blk - 1] *)
Definition fill_bulk_fetch (BW : Z) (w : world) (self : gaba_dp_context_s)
    (prev : gaba_block_s) : gaba_dp_context_s :=
  fetch_common BW w self (blk_ch prev)
    (r_atail self - blk_aridx prev) BLK
    (r_btail self - blk_bridx prev) BLK.

(** [fill_cap_fetch] *)
Definition fill_cap_fetch (BW : Z) (w : world) (self : gaba_dp_context_s)
    (prev : gaba_block_s) : gaba_dp_context_s :=
  let ridx := (blk_aridx prev, blk_bridx prev) in
  let len := _max_v2i32 (_min_v2i32 ridx (_set_v2i32 BLK)) _zero_v2i32 in
  fetch_common BW w self (blk_ch prev)
    (r_atail self - _lo32 ridx) (_lo32 len)
    (r_btail self - _hi32 ridx) (_hi32 len).

(** the char vector stored after [cnt] = (A count, B count) new symbols *)
Definition char_vector (BW : Z) (self : gaba_dp_context_s) (cnt : v2) : vec :=
  let a := load_at BW (_rd_bufa BW (_lo32 cnt) BW) (r_buf self) in
  let b := load_at BW (_rd_bufb BW (_hi32 cnt) BW) (r_buf self) in
  _or_n a (_shl_n b 4).

(** [struct gaba_joint_block_s]: [jb_blks] is the journal of the fill so
    far, newest block first, so that [blk - 1] is its head *)
Record gaba_joint_block_s := mk_jb {
  jb_blks : list gaba_block_s;
  jb_p : Z;
  jb_stat : Z
}.

Definition last_blk (blks : list gaba_block_s) : gaba_block_s := hd empty_block blks.

(** [fill_init_fetch]: [blk] is the phantom block being written *)
Definition fill_init_fetch (BW : Z) (w : world) (self : gaba_dp_context_s)
    (prev_tail : gaba_joint_tail_s) (blk : gaba_block_s) (ridx : v2)
  : gaba_dp_context_s * gaba_joint_block_s :=
  let prem := - t_psum prev_tail in
  let rem := _sar_v2i32 (_seta_v2i32 prem (prem + 1)) 1 in
  let z := _zero_v2i32 in
  let ofs := _seta_v2i32 1 0 in
  let nrem := _max_v2i32 (_sub_v2i32 rem ridx) z in
  let rrem := _sub_v2i32 (_swap_v2i32 nrem) ofs in
  let nrem := _max_v2i32 nrem rrem in
  let len := _sub_v2i32 rem nrem in
  let self := fetch_common BW w self (blk_ch (_last_block prev_tail))
                (r_atail self - _lo32 ridx) (_lo32 len)
                (r_btail self - _hi32 ridx) (_hi32 len) in
  let ch := char_vector BW self len in
  let ridx := _sub_v2i32 ridx len in
  let blk := mk_block (blk_mask blk) (blk_dh blk) (blk_dv blk) (blk_delta blk)
               (blk_max blk) (blk_dir blk) (blk_offset blk)
               (_lo32 ridx) (_hi32 ridx) (blk_md blk) ch (blk_pad blk) in
  (self,
   mk_jb [blk] (_lo32 len + _hi32 len)
     (if _mask_v2i32 (_eq_v2i32 ridx z) =? V2I32_MASK_00 then CONT else UPDATE)).

(* ------------------------------------------------------------------ *)
(** ** Fill engine: one anti-diagonal step *)

(** direction determiner, dynamic band *)
Definition _dir_fetch (d : gaba_dir_u) : gaba_dir_u :=
  mk_dir (dir_acc d)
         (Z.lor (u32 (Z.shiftl (dir_array d) 1)) (Z.b2z (dir_acc d <? 0))).
Definition _dir_update (BW : Z) (d : gaba_dir_u) (v : vec) (sign : Z) : gaba_dir_u :=
  mk_dir (s8 (dir_acc d + sign * (_ext_n v 0 - _ext_n v (BW - 1)))) (dir_array d).
Definition _dir_adjust_remainder (d : gaba_dir_u) (filled_count : Z) : gaba_dir_u :=
  mk_dir (dir_acc d) (u32 (Z.shiftl (dir_array d) (BLK - filled_count))).
Definition _dir_is_down (d : gaba_dir_u) : bool := Z.odd (dir_array d).
Definition _dir_is_right (d : gaba_dir_u) : bool := negb (Z.odd (dir_array d)).
Definition _dir_windback (d : gaba_dir_u) : gaba_dir_u :=
  mk_dir (dir_acc d) (Z.shiftr (dir_array d) 1).
Definition _dir_load (blk : gaba_block_s) (local_idx : Z) : gaba_dir_u :=
  mk_dir (dir_acc (blk_dir blk))
         (Z.shiftr (dir_array (blk_dir blk)) (BLK - local_idx - 1)).
Definition _dir_bcnt (d : gaba_dir_u) : Z := popcnt (dir_array d).

(** what [_fill_load_context] keeps in registers and locals *)
Record fill_regs := mk_regs {
  g_dh : vec; g_dv : vec; g_de : vec; g_df : vec;
  g_delta : vec; g_max : vec;
  g_dir : gaba_dir_u;
  g_offset : Z;
  g_aptr : Z; g_bptr : Z;
  g_mask : list gaba_mask_pair_u    (* written so far, in order *)
}.

(** [_load_adjh] .. [_load_ofsv]: a gap constant in every lane *)
Definition bcast (BW x : Z) : vec := repeat x (Z.to_nat BW).

(** [_fill_load_context(_blk)]; [prev] is [_blk - 1] *)
Definition _fill_load_context (MODEL : gap_model) (BW : Z) (prev : gaba_block_s) : fill_regs :=
  match MODEL with
  | LINEAR =>
      mk_regs (blk_dh prev) (blk_dv prev) [] []
        (blk_delta prev) (blk_max prev) (blk_dir prev) (blk_offset prev)
        (_rd_bufa BW 0 BW) (_rd_bufb BW 0 BW) []
  | AFFINE =>
      let mask := _set_n BW 0x07 in
      let dh := blk_dh prev in
      let dv := blk_dv prev in
      let de := _and_n mask dh in
      let df := _and_n mask dv in
      let dh := _shr_n (_andn_n mask dh) 3 in
      let dv := _shr_n (_andn_n mask dv) 3 in
      let de := _add_n dv de in
      let df := _add_n dh df in
      let dh := _sub_n (_zero_n BW) dh in
      mk_regs dh dv de df
        (blk_delta prev) (blk_max prev) (blk_dir prev) (blk_offset prev)
        (_rd_bufa BW 0 BW) (_rd_bufb BW 0 BW) []
  end.

(** [_fill_body()]: relax one anti-diagonal and record its masks *)
Definition _fill_body (MODEL : gap_model) (BW : Z) (self : gaba_dp_context_s)
    (r : fill_regs) : fill_regs :=
  let scv := k_scv (dp_k self) in
  let t := _and_n (load_at BW (g_aptr r) (r_buf self)) (load_at BW (g_bptr r) (r_buf self)) in
  let t := _shuf_n (scv_sb scv) t in
  match MODEL with
  | LINEAR =>
      let dh := g_dh r in
      let dv := g_dv r in
      let t := _max_n dh t in
      let t := _max_n dv t in
      let mk := mk_mask (_mask_n (_eq_n t dv)) (_mask_n (_eq_n t dh)) 0 0 in
      let dv' := _sub_n t dh in
      let dh' := _sub_n t dv in
      mk_regs dh' dv' (g_de r) (g_df r) (g_delta r) (g_max r) (g_dir r)
        (g_offset r) (g_aptr r) (g_bptr r) (g_mask r ++ [mk])
  | AFFINE =>
      let dh := g_dh r in
      let dv := g_dv r in
      let de := g_de r in
      let df := g_df r in
      let t := _max_n de t in
      let t := _max_n df t in
      let mh := _mask_n (_eq_n t de) in
      let mv := _mask_n (_eq_n t df) in
      let de := _add_n de (bcast BW (scv_adjh scv)) in
      let te := _max_n de t in
      let me := _mask_n (_eq_n te de) in
      let de := _add_n te dh in
      let dh := _add_n dh t in
      let df := _add_n df (bcast BW (scv_adjv scv)) in
      let tf := _max_n df t in
      let mf := _mask_n (_eq_n tf df) in
      let df := _sub_n tf dv in
      let t := _sub_n dv t in
      mk_regs t dh de df (g_delta r) (g_max r) (g_dir r)
        (g_offset r) (g_aptr r) (g_bptr r) (g_mask r ++ [mk_mask mh mv me mf])
  end.

(** [_fill_update_delta(_op, _vector, _offset, _sign)] *)
Definition _fill_update_delta (BW : Z) (op : vec -> vec -> vec) (vector : vec)
    (offset sign : Z) (r : fill_regs) : fill_regs :=
  let delta := op (g_delta r) (_add_n vector (bcast BW offset)) in
  let max := _max_n (g_max r) delta in
  mk_regs (g_dh r) (g_dv r) (g_de r) (g_df r) delta max
    (_dir_update BW (g_dir r) vector sign)
    (g_offset r) (g_aptr r) (g_bptr r) (g_mask r).

Definition set_diff (r : fill_regs) (dh dv de df : vec) : fill_regs :=
  mk_regs dh dv de df (g_delta r) (g_max r) (g_dir r)
    (g_offset r) (g_aptr r) (g_bptr r) (g_mask r).
Definition set_ptrs (r : fill_regs) (aptr bptr : Z) : fill_regs :=
  mk_regs (g_dh r) (g_dv r) (g_de r) (g_df r) (g_delta r) (g_max r) (g_dir r)
    (g_offset r) aptr bptr (g_mask r).
Definition set_dir (r : fill_regs) (d : gaba_dir_u) : fill_regs :=
  mk_regs (g_dh r) (g_dv r) (g_de r) (g_df r) (g_delta r) (g_max r) d
    (g_offset r) (g_aptr r) (g_bptr r) (g_mask r).

(** [_fill_right()] and [_fill_down()] *)
Definition _fill_right (MODEL : gap_model) (BW : Z) (self : gaba_dp_context_s)
    (r : fill_regs) : fill_regs :=
  let ofsh := scv_ofsh (k_scv (dp_k self)) in
  match MODEL with
  | LINEAR =>
      let r := set_diff r (_bsl_n (g_dh r)) (g_dv r) (g_de r) (g_df r) in
      let r := _fill_body MODEL BW self r in
      _fill_update_delta BW _add_n (g_dh r) ofsh 1 r
  | AFFINE =>
      let r := set_diff r (_bsl_n (g_dh r)) (g_dv r) (g_de r) (_bsl_n (g_df r)) in
      let r := _fill_body MODEL BW self r in
      _fill_update_delta BW _sub_n (g_dh r) ofsh (-1) r
  end.

Definition _fill_down (MODEL : gap_model) (BW : Z) (self : gaba_dp_context_s)
    (r : fill_regs) : fill_regs :=
  let ofsv := scv_ofsv (k_scv (dp_k self)) in
  match MODEL with
  | LINEAR =>
      let r := set_diff r (g_dh r) (_bsr_n (g_dv r)) (g_de r) (g_df r) in
      let r := _fill_body MODEL BW self r in
      _fill_update_delta BW _add_n (g_dv r) ofsv 1 r
  | AFFINE =>
      let r := set_diff r (g_dh r) (_bsr_n (g_dv r)) (_bsr_n (g_de r)) (g_df r) in
      let r := _fill_body MODEL BW self r in
      _fill_update_delta BW _add_n (g_dv r) ofsv 1 r
  end.

Definition _fill_right_update_ptr (r : fill_regs) := set_ptrs r (g_aptr r - 1) (g_bptr r).
Definition _fill_right_windback_ptr (r : fill_regs) := set_ptrs r (g_aptr r + 1) (g_bptr r).
Definition _fill_down_update_ptr (r : fill_regs) := set_ptrs r (g_aptr r) (g_bptr r + 1).
Definition _fill_down_windback_ptr (r : fill_regs) := set_ptrs r (g_aptr r) (g_bptr r - 1).

(* ------------------------------------------------------------------ *)
(** ** Fill engine: blocks *)

(** [_fill_update_offset()] *)
Definition _fill_update_offset (BW : Z) (r : fill_regs) : fill_regs :=
  let cd := s8 (_ext_n (g_delta r) (Z.quot BW 2)) in
  mk_regs (g_dh r) (g_dv r) (g_de r) (g_df r)
    (_sub_n (g_delta r) (_set_n BW cd))
    (_sub_n (g_max r) (_set_n BW cd))
    (g_dir r) (s64 (g_offset r + cd)) (g_aptr r) (g_bptr r) (g_mask r).

(** the [diff] vectors [_fill_store_vectors] writes *)
Definition stored_diff (MODEL : gap_model) (BW : Z) (r : fill_regs) : vec * vec :=
  match MODEL with
  | LINEAR => (g_dh r, g_dv r)
  | AFFINE =>
      let de := _sub_n (g_de r) (g_dv r) in
      let df := _add_n (g_df r) (g_dh r) in
      let dh := _sub_n (_zero_n BW) (g_dh r) in
      let dh := _shl_n dh 3 in
      let dv := _shl_n (g_dv r) 3 in
      (_add_n dh de, _add_n dv df)
  end.

(** the value of [_fill_store_vectors]: how far the two read pointers moved *)
Definition fill_cnt (BW : Z) (r : fill_regs) : v2 :=
  let acnt := u64 (_rd_bufa BW 0 BW - g_aptr r) in
  let bcnt := u64 (g_bptr r - _rd_bufb BW 0 BW) in
  _seta_v2i32 bcnt acnt.

(** [_fill_store_vectors(_blk)] followed by [fill_update_section]: the
    block written from the registers; [prev] is [_blk - 1] *)
Definition fill_store_block (MODEL : gap_model) (BW : Z) (w : world)
    (self : gaba_dp_context_s) (prev : gaba_block_s) (r : fill_regs) : gaba_block_s :=
  let d := stored_diff MODEL BW r in
  let cnt := fill_cnt BW r in
  let ridx := _sub_v2i32 (blk_aridx prev, blk_bridx prev) cnt in
  mk_block (g_mask r) (fst d) (snd d) (g_delta r) (g_max r) (g_dir r) (g_offset r)
    (_lo32 ridx) (_hi32 ridx) None (char_vector BW self cnt) (junk w).

(** one element of the unrolled loop of [fill_bulk_block] *)
Definition fill_step (MODEL : gap_model) (BW : Z) (self : gaba_dp_context_s)
    (r : fill_regs) : fill_regs :=
  let r := set_dir r (_dir_fetch (g_dir r)) in
  if _dir_is_down (g_dir r)
  then _fill_down MODEL BW self (_fill_down_update_ptr r)
  else _fill_right MODEL BW self (_fill_right_update_ptr r).

Fixpoint fill_steps (MODEL : gap_model) (BW : Z) (self : gaba_dp_context_s)
    (n : nat) (r : fill_regs) : fill_regs :=
  match n with
  | O => r
  | S n' => fill_steps MODEL BW self n' (fill_step MODEL BW self r)
  end.

(** [fill_bulk_block]: the new context (its reader buffer changed) and the
    block written *)
Definition fill_bulk_block (MODEL : gap_model) (BW : Z) (w : world)
    (self : gaba_dp_context_s) (prev : gaba_block_s)
  : gaba_dp_context_s * gaba_block_s :=
  let self := fill_bulk_fetch BW w self prev in
  let r := _fill_load_context MODEL BW prev in
  let r := fill_steps MODEL BW self (Z.to_nat BLK) r in
  let r := _fill_update_offset BW r in
  (self, fill_store_block MODEL BW w self prev r).

(** [fill_test_xdrop], [fill_bulk_test_seq_bound] *)
Definition fill_test_xdrop (BW : Z) (self : gaba_dp_context_s) (blk : gaba_block_s) : Z :=
  k_tx (dp_k self) - _ext_n (blk_max blk) (Z.quot BW 2).
Definition fill_bulk_test_seq_bound (BW : Z) (blk : gaba_block_s) : Z :=
  Z.lor (blk_aridx blk - BW) (blk_bridx blk - BW).

(** [fill_bulk_predetd_blocks]: the loop counter [bc] runs to [blk_cnt];
    [fuel] bounds the number of iterations the embedding unrolls *)
Fixpoint fill_bulk_predetd_loop (MODEL : gap_model) (BW : Z) (w : world) (fuel : nat)
    (self : gaba_dp_context_s) (blks : list gaba_block_s) (bc blk_cnt : Z)
  : option (gaba_dp_context_s * list gaba_block_s * Z * Z) :=
  if bc <? blk_cnt then
    if fill_test_xdrop BW self (last_blk blks) <? 0 then Some (self, blks, bc, TERM)
    else
      match fuel with
      | O => None
      | S fuel' =>
          let '(self', b) := fill_bulk_block MODEL BW w self (last_blk blks) in
          fill_bulk_predetd_loop MODEL BW w fuel' self' (b :: blks) (bc + 1) blk_cnt
      end
  else Some (self, blks, bc, CONT).

Definition fill_bulk_predetd_blocks (MODEL : gap_model) (BW : Z) (w : world) (fuel : nat)
    (self : gaba_dp_context_s) (blks : list gaba_block_s) (blk_cnt : Z)
  : option (gaba_dp_context_s * gaba_joint_block_s) :=
  match fill_bulk_predetd_loop MODEL BW w fuel self blks 0 blk_cnt with
  | None => None
  | Some (self', blks', bc, stat) => Some (self', mk_jb blks' (s64 (bc * BLK)) stat)
  end.

(** [fill_bulk_seq_bounded] *)
Fixpoint fill_bulk_seq_bounded_loop (MODEL : gap_model) (BW : Z) (w : world) (fuel : nat)
    (self : gaba_dp_context_s) (blks : list gaba_block_s) (p : Z)
  : option (gaba_dp_context_s * list gaba_block_s * Z) :=
  if Z.lor (fill_test_xdrop BW self (last_blk blks))
           (fill_bulk_test_seq_bound BW (last_blk blks)) <? 0
  then Some (self, blks, p)
  else
    match fuel with
    | O => None
    | S fuel' =>
        let '(self', b) := fill_bulk_block MODEL BW w self (last_blk blks) in
        fill_bulk_seq_bounded_loop MODEL BW w fuel' self' (b :: blks) (p + BLK)
    end.

Definition fill_bulk_seq_bounded (MODEL : gap_model) (BW : Z) (w : world) (fuel : nat)
    (self : gaba_dp_context_s) (blks : list gaba_block_s)
  : option (gaba_dp_context_s * gaba_joint_block_s) :=
  match fill_bulk_seq_bounded_loop MODEL BW w fuel self blks 0 with
  | None => None
  | Some (self', blks', p) =>
      Some (self',
            mk_jb blks' p
              (if fill_test_xdrop BW self' (last_blk blks') <? 0 then TERM else CONT))
  end.

(** [_fill_cap_test_seq_bound()], with the two limits of
    [_fill_cap_test_seq_bound_init] *)
Definition _fill_cap_test_seq_bound (alim blim : Z) (r : fill_regs) : Z :=
  Z.lor (g_aptr r - alim) (blim - g_bptr r).

(** the [for(i = 0; i < BLK; i++)] loop of [fill_cap_seq_bounded]: the
    value of [i] at the exit and the registers *)
Fixpoint fill_cap_steps (MODEL : gap_model) (BW : Z) (self : gaba_dp_context_s)
    (alim blim : Z) (n : nat) (i : Z) (r : fill_regs) : Z * fill_regs :=
  match n with
  | O => (i, r)
  | S n' =>
      let r := set_dir r (_dir_fetch (g_dir r)) in
      if _dir_is_right (g_dir r) then
        let r := _fill_right_update_ptr r in
        if _fill_cap_test_seq_bound alim blim r <? 0
        then (i, set_dir (_fill_right_windback_ptr r) (_dir_windback (g_dir r)))
        else fill_cap_steps MODEL BW self alim blim n' (i + 1) (_fill_right MODEL BW self r)
      else
        let r := _fill_down_update_ptr r in
        if _fill_cap_test_seq_bound alim blim r <? 0
        then (i, set_dir (_fill_down_windback_ptr r) (_dir_windback (g_dir r)))
        else fill_cap_steps MODEL BW self alim blim n' (i + 1) (_fill_down MODEL BW self r)
  end.

(** one pass of the [while(1)] body of [fill_cap_seq_bounded] after the
    X-drop test: the block written and the number of steps filled *)
Definition fill_cap_block (MODEL : gap_model) (BW : Z) (w : world)
    (self : gaba_dp_context_s) (prev : gaba_block_s)
  : gaba_dp_context_s * gaba_block_s * Z :=
  let self := fill_cap_fetch BW w self prev in
  let alim := _rd_bufa BW (blk_aridx prev) BW in
  let blim := _rd_bufb BW (blk_bridx prev) BW in
  let r := _fill_load_context MODEL BW prev in
  let '(i, r) := fill_cap_steps MODEL BW self alim blim (Z.to_nat BLK) 0 r in
  let r := set_dir r (_dir_adjust_remainder (g_dir r) i) in
  let r := _fill_update_offset BW r in
  (self, fill_store_block MODEL BW w self prev r, i).

(** [fill_cap_seq_bounded] *)
Fixpoint fill_cap_seq_bounded_loop (MODEL : gap_model) (BW : Z) (w : world) (fuel : nat)
    (self : gaba_dp_context_s) (blks : list gaba_block_s) (p : Z)
  : option (gaba_dp_context_s * gaba_joint_block_s) :=
  if fill_test_xdrop BW self (last_blk blks) <? 0
  then Some (self, mk_jb blks p TERM)
  else
    let '(self', b, i) := fill_cap_block MODEL BW w self (last_blk blks) in
    let blks' := if i =? 0 then blks else b :: blks in
    let p' := p + i in
    if i =? BLK then
      match fuel with
      | O => None
      | S fuel' => fill_cap_seq_bounded_loop MODEL BW w fuel' self' blks' p'
      end
    else Some (self', mk_jb blks' p' UPDATE).

Definition fill_cap_seq_bounded (MODEL : gap_model) (BW : Z) (w : world) (fuel : nat)
    (self : gaba_dp_context_s) (blks : list gaba_block_s)
  : option (gaba_dp_context_s * gaba_joint_block_s) :=
  fill_cap_seq_bounded_loop MODEL BW w fuel self blks 0.

(** [calc_max_bulk_blocks_mem] and the three block-count estimates *)
Definition calc_max_bulk_blocks_mem (MODEL : gap_model) (BW : Z) (self : gaba_dp_context_s) : Z :=
  let mem_size := u64 (stack_end self - stack_top self) in
  let blk_cnt := Z.quot mem_size (sizeof_block MODEL BW) in
  (if 3 <? blk_cnt then blk_cnt else 3) - 3.

Definition calc_min_expected_blocks_blk (prev : gaba_block_s) : Z :=
  let p := u64 (MIN2 (blk_aridx prev) (blk_bridx prev)) in
  Z.quot (u64 (p + Z.quot p 2)) BLK.

Definition calc_max_expected_blocks_tail (self : gaba_dp_context_s) (tail : gaba_joint_tail_s) : Z :=
  let p := MIN2 (u32 (r_alen self - t_apos tail)) (u32 (r_blen self - t_bpos tail)) in
  Z.quot (u64 (2 * p + Z.quot p 2)) BLK.

Definition calc_min_expected_blocks_tail (self : gaba_dp_context_s) (tail : gaba_joint_tail_s) : Z :=
  let p := MIN2 (u32 (r_alen self - t_apos tail)) (u32 (r_blen self - t_bpos tail)) in
  Z.quot (u64 (p + Z.quot p 2)) BLK.

(* ------------------------------------------------------------------ *)
(** ** Phantom block, ungapped filter and tail *)

(** [fill_gapless_filter]: the two 16-byte loads start at [ch.w[0]] and
    [ch.w[16]]; with [BW = 16] the second one reads the [_pad] area *)
Definition fill_gapless_filter (self : gaba_dp_context_s) (blk : gaba_block_s) (stat : Z) : Z :=
  let load_mask := _set_n 16 0x0f in
  let match_mask := _bsl_n (_set_n 16 0xff) in
  let a := load_at 16 0 (blk_ch blk ++ blk_pad blk) in
  let b := load_at 16 16 (blk_ch blk ++ blk_pad blk) in
  let a0 := _swap_n (_and_n load_mask a) in
  let b0 := _bsr_n (_and_n load_mask (_shr_n b 4)) in
  let a1 := _bsr_n a0 in
  let b1 := _bsr_n b0 in
  let m1 := _shuf_n match_mask (_and_n a0 b1) in
  let m2 := _shuf_n match_mask (_and_n a0 b0) in
  let m3 := _shuf_n match_mask (_and_n a1 b0) in
  let cnt_mask := _or_n (_or_n m1 m2) m3 in
  let cnt := popcnt (_mask_n cnt_mask) in
  if k_tf (dp_k self) <? cnt then CONT else TERM.

(** [fill_create_phantom_block] *)
Definition fill_create_phantom_block (BW : Z) (w : world) (self : gaba_dp_context_s)
    (prev_tail : gaba_joint_tail_s) : gaba_dp_context_s * gaba_joint_block_s :=
  let pblk := _last_block prev_tail in
  let ridx := _sub_v2i32 (r_alen self, r_blen self) (t_apos prev_tail, t_bpos prev_tail) in
  let blk := mk_block [] (blk_dh pblk) (blk_dv pblk) (blk_delta pblk) (blk_max pblk)
               (blk_dir pblk) (blk_offset pblk) 0 0 None [] (junk w) in
  if 0 <=? t_psum prev_tail then
    let blk := mk_block [] (blk_dh pblk) (blk_dv pblk) (blk_delta pblk) (blk_max pblk)
                 (blk_dir pblk) (blk_offset pblk) (_lo32 ridx) (_hi32 ridx) None
                 (blk_ch pblk) (junk w) in
    (self, mk_jb [blk] 0 CONT)
  else
    let '(self', stat) := fill_init_fetch BW w self prev_tail blk ridx in
    if 0 <=? t_psum prev_tail + jb_p stat
    then (self', mk_jb (jb_blks stat) (jb_p stat)
                   (fill_gapless_filter self' (last_blk (jb_blks stat)) (jb_stat stat)))
    else (self', stat).

Definition set_md (b : gaba_block_s) (md : option vec) : gaba_block_s :=
  mk_block (blk_mask b) (blk_dh b) (blk_dv b) (blk_delta b) (blk_max b)
    (blk_dir b) (blk_offset b) (blk_aridx b) (blk_bridx b) md (blk_ch b) (blk_pad b).

Definition md_of (b : gaba_block_s) : vec :=
  match blk_md b with Some md => md | None => [] end.

(** the address right above the blocks of a journal segment that starts
    with a phantom block at [top] *)
Definition journal_end (MODEL : gap_model) (BW : Z) (top : Z) (blks : list gaba_block_s) : Z :=
  top + sizeof_phantom_block BW
      + (Z.of_nat (length blks) - 1) * sizeof_block MODEL BW.

(** [fill_create_tail]: [blks] is the journal of this fill, [top] the
    address its phantom block was written at *)
Definition fill_create_tail (MODEL : gap_model) (BW : Z) (self : gaba_dp_context_s)
    (prev_tail : gaba_joint_tail_s) (top : Z) (blks : list gaba_block_s) (p stat : Z)
  : gaba_dp_context_s * gaba_joint_tail_s :=
  let self := set_stack_top self (journal_end MODEL BW top blks + sizeof_joint_tail) in
  let last := set_md (last_blk blks) (blk_md (_last_block prev_tail)) in
  let prev_psum := t_psum prev_tail in
  let np := s32 (if prev_psum <? 0 then MAX2 (p + prev_psum) 0 else p) in
  let sd := _cvt_n_w (blk_max last) in
  let md := md_of (_last_block prev_tail) in
  let md := _add_w md sd in
  let max := s16 (_hmax_w md) in
  let z := _zero_v2i32 in
  let ridx := (blk_aridx last, blk_bridx last) in
  let len := (r_alen self, r_blen self) in
  let pos := _sel_v2i32 (_eq_v2i32 ridx z) z (_sub_v2i32 len ridx) in
  (self,
   mk_tail (s64 (p + prev_psum)) np (u32 (t_ssum prev_tail + 1))
     (s64 (max + blk_offset last))
     (u32 (Z.lor stat (_mask_v2i32 (_eq_v2i32 ridx z)))) 0
     (Some prev_tail)
     (u32 (_lo32 pos)) (u32 (_hi32 pos))
     (u32 (_lo32 len)) (u32 (_hi32 len))
     (r_aid self) (r_bid self)
     (last :: tl blks)).

(* ------------------------------------------------------------------ *)
(** ** Fill drivers *)

(** [fill_mem_bounded] *)
Definition fill_mem_bounded (MODEL : gap_model) (BW : Z) (w : world) (fuel : nat)
    (self : gaba_dp_context_s) (prev_tail : gaba_joint_tail_s) (blk_cnt : Z)
  : option (gaba_dp_context_s * gaba_joint_tail_s) :=
  let top := stack_top self in
  let '(self, h) := fill_create_phantom_block BW w self prev_tail in
  if negb (jb_stat h =? CONT) then
    Some (fill_create_tail MODEL BW self prev_tail top (jb_blks h) (jb_p h) (jb_stat h))
  else
    match fill_bulk_predetd_blocks MODEL BW w fuel self (jb_blks h) blk_cnt with
    | None => None
    | Some (self, b) =>
        Some (fill_create_tail MODEL BW self prev_tail top (jb_blks b)
                (jb_p h + jb_p b) (jb_stat b))
    end.

(** the [while(seq_bulk_blocks > MIN_BULK_BLOCKS)] loop of [fill_seq_bounded];
    the flag tells whether the loop left through [goto _fill_seq_bounded_finish] *)
Fixpoint fill_seq_bounded_bulk (MODEL : gap_model) (BW : Z) (w : world) (fuel : nat)
    (self : gaba_dp_context_s) (stat : gaba_joint_block_s) (psum : Z)
  : option (gaba_dp_context_s * gaba_joint_block_s * Z * bool) :=
  let seq_bulk_blocks := calc_min_expected_blocks_blk (last_blk (jb_blks stat)) in
  if MIN_BULK_BLOCKS <? seq_bulk_blocks then
    match fuel with
    | O => None
    | S fuel' =>
        match fill_bulk_predetd_blocks MODEL BW w fuel self (jb_blks stat) seq_bulk_blocks with
        | None => None
        | Some (self, stat) =>
            let psum := psum + jb_p stat in
            if negb (jb_stat stat =? CONT) then Some (self, stat, psum, true)
            else fill_seq_bounded_bulk MODEL BW w fuel' self stat psum
        end
    end
  else Some (self, stat, psum, false).

(** [fill_seq_bounded] *)
Definition fill_seq_bounded (MODEL : gap_model) (BW : Z) (w : world) (fuel : nat)
    (self : gaba_dp_context_s) (prev_tail : gaba_joint_tail_s)
  : option (gaba_dp_context_s * gaba_joint_tail_s) :=
  let top := stack_top self in
  let finish self stat psum :=
    Some (fill_create_tail MODEL BW self prev_tail top (jb_blks stat) psum (jb_stat stat)) in
  let '(self, stat) := fill_create_phantom_block BW w self prev_tail in
  let psum := jb_p stat in
  if negb (jb_stat stat =? CONT) then finish self stat psum
  else
    match fill_seq_bounded_bulk MODEL BW w fuel self stat psum with
    | None => None
    | Some (self, stat, psum, true) => finish self stat psum
    | Some (self, stat, psum, false) =>
        match fill_bulk_seq_bounded MODEL BW w fuel self (jb_blks stat) with
        | None => None
        | Some (self, stat) =>
            let psum := psum + jb_p stat in
            if negb (jb_stat stat =? CONT) then finish self stat psum
            else
              match fill_cap_seq_bounded MODEL BW w fuel self (jb_blks stat) with
              | None => None
              | Some (self, stat) => finish self stat (psum + jb_p stat)
              end
        end
    end.

(** result of a fill entry point: a handle, the null pointer (the arena
    could not grow), or the embedding ran out of [fuel] *)
Inductive fill_result :=
| Filled (self : gaba_dp_context_s) (tail : gaba_joint_tail_s)
| FillNull
| OutOfFuel.

(** the [while(mem_bulk_blocks < seq_bulk_blocks)] loop of
    [fill_section_seq_bounded]; [inl] is an early [return], [inr] leaves
    the loop *)
Fixpoint fill_section_mem_loop (MODEL : gap_model) (BW : Z) (w : world) (fuel : nat)
    (self : gaba_dp_context_s) (tail : gaba_joint_tail_s)
    (mem_bulk_blocks seq_bulk_blocks : Z)
  : fill_result + (gaba_dp_context_s * gaba_joint_tail_s) :=
  if mem_bulk_blocks <? seq_bulk_blocks then
    match fuel with
    | O => inl OutOfFuel
    | S fuel' =>
        let bulk_cnt := MIN2 mem_bulk_blocks (calc_min_expected_blocks_tail self tail) in
        let filled :=
          if MIN_BULK_BLOCKS <? bulk_cnt then
            match fill_mem_bounded MODEL BW w fuel self tail bulk_cnt with
            | None => inl OutOfFuel
            | Some (self', tail') =>
                if negb (t_stat tail' =? CONT) then inl (Filled self' tail')
                else inr (self', tail', calc_max_expected_blocks_tail self' tail')
            end
          else inr (self, tail, seq_bulk_blocks) in
        match filled with
        | inl r => inl r
        | inr (self, tail, seq_bulk_blocks) =>
            match gaba_dp_add_stack w self 0 with
            | None => inl FillNull
            | Some self =>
                fill_section_mem_loop MODEL BW w fuel' self tail
                  (calc_max_bulk_blocks_mem MODEL BW self) seq_bulk_blocks
            end
        end
    end
  else inr (self, tail).

Definition INT64_MAX : Z := 2^63 - 1.

(** [fill_section_seq_bounded] *)
Definition fill_section_seq_bounded (MODEL : gap_model) (BW : Z) (w : world) (fuel : nat)
    (self : gaba_dp_context_s) (prev_tail : gaba_joint_tail_s) (a b : gaba_section_s)
  : fill_result :=
  let self := fill_load_section self a b INT64_MAX in
  let mem_bulk_blocks := calc_max_bulk_blocks_mem MODEL BW self in
  let seq_bulk_blocks := calc_max_expected_blocks_tail self prev_tail in
  match fill_section_mem_loop MODEL BW w fuel self prev_tail mem_bulk_blocks seq_bulk_blocks with
  | inl r => r
  | inr (self, tail) =>
      match fill_seq_bounded MODEL BW w fuel self tail with
      | None => OutOfFuel
      | Some (self, tail) => Filled self tail
      end
  end.

Definition set_root_pos (t : gaba_joint_tail_s) (apos bpos : Z) : gaba_joint_tail_s :=
  mk_tail (t_psum t) (t_p t) (t_ssum t) (t_max t) (t_stat t) (t_rem_len t) (t_tail t)
    (u32 apos) (u32 bpos) (t_alen t) (t_blen t) (t_aid t) (t_bid t) (t_blks t).

Definition _ptail (self : gaba_dp_context_s) : gaba_joint_tail_s := root_tail (dp_ph self).

(** [gaba_dp_fill_root] *)
Definition gaba_dp_fill_root (MODEL : gap_model) (BW : Z) (w : world) (fuel : nat)
    (self : gaba_dp_context_s) (a : gaba_section_s) (apos : Z)
    (b : gaba_section_s) (bpos : Z) : fill_result :=
  let root := set_root_pos (_ptail self) apos bpos in
  let self := mk_dp (stack_top self) (stack_end self) (curr_mem self) (mems self)
                (r_alim self) (r_blim self) (r_atail self) (r_btail self)
                (r_alen self) (r_blen self) (r_aid self) (r_bid self) (r_plim self)
                (r_buf self) (dp_k self) (mk_root root) in
  fill_section_seq_bounded MODEL BW w fuel self root a b.

(** [gaba_dp_fill] *)
Definition gaba_dp_fill (MODEL : gap_model) (BW : Z) (w : world) (fuel : nat)
    (self : gaba_dp_context_s) (prev_sec : gaba_joint_tail_s)
    (a b : gaba_section_s) : fill_result :=
  fill_section_seq_bounded MODEL BW w fuel self prev_sec a b.

(* ------------------------------------------------------------------ *)
(** ** Maximum locator *)

(** A block pointer inside the journal segment of one tail: index [0] is
    [_last_block(tail)], index [k + 1] is the block below block [k], and
    [-1] is the address of the tail itself ([_last_block(tail) + 1]).
    Below the phantom block lies memory of earlier fills, which the
    embedding reads as [empty_block]. *)
Definition blk_at (t : gaba_joint_tail_s) (k : Z) : gaba_block_s :=
  if k <? 0 then empty_block else nth (Z.to_nat k) (t_blks t) empty_block.

(** [struct gaba_leaf_s] *)
Record gaba_leaf_s := mk_leaf {
  leaf_tail : gaba_joint_tail_s;
  leaf_blk : Z;
  leaf_aridx : Z; leaf_bridx : Z;
  leaf_p : Z; leaf_q : Z
}.

(** one bit per 16-bit lane *)
Definition _mask_w (v : vec) : Z := _mask_n v.
Definition _eq_w (a b : vec) : vec := _eq_n a b.

(** [leaf_load_max_mask]: (max, offset, mask_max) *)
Definition leaf_load_max_mask (BW : Z) (tail : gaba_joint_tail_s) : vec * Z * Z :=
  let blk := _last_block tail in
  let max := blk_max blk in
  let offset := blk_offset blk in
  let mask_max :=
    _mask_w (_eq_w (_set_w BW (t_max tail - offset))
                   (_add_w (md_of (_last_block tail)) (_cvt_n_w max))) in
  (max, offset, mask_max).

(** [leaf_detect_max_block]: the loop over [b]; [k] is the index of [blk] *)
Fixpoint leaf_detect_max_loop (BW : Z) (tail : gaba_joint_tail_s) (fuel : nat)
    (b k : Z) (offset mask_max : Z) (max : vec) : vec * Z * Z * Z :=
  match fuel with
  | O => (max, k, -1, mask_max)
  | S fuel' =>
      if b <? 0 then (max, k, -1, mask_max)
      else
        let prev_max := blk_max (blk_at tail (k + 1)) in
        let prev_offset := blk_offset (blk_at tail (k + 1)) in
        let max := _add_n max (_set_n BW (offset - prev_offset)) in
        let prev_mask_max := Z.land mask_max (_mask_n (_eq_n prev_max max)) in
        if prev_mask_max =? 0 then (max, k, s32 (b * BLK), mask_max)
        else leaf_detect_max_loop BW tail fuel' (b - 1) (k + 1)
               prev_offset prev_mask_max prev_max
  end.

Definition leaf_detect_max_block (BW : Z) (tail : gaba_joint_tail_s)
    (offset mask_max : Z) (max : vec) : vec * Z * Z * Z :=
  leaf_detect_max_loop BW tail (length (t_blks tail))
    (Z.shiftr (s32 (t_p tail - 1)) BLK_BASE) 0 offset mask_max max.

(** [fill_restore_fetch]; [prev] is [blk - 1] *)
Definition fill_restore_fetch (BW : Z) (self : gaba_dp_context_s)
    (blk prev : gaba_block_s) : gaba_dp_context_s :=
  let cnt := _sub_v2i32 (blk_aridx prev, blk_bridx prev) (blk_aridx blk, blk_bridx blk) in
  let buf := store_at (_rd_bufa BW (_lo32 cnt) BW) (ch_a BW (blk_ch blk)) (r_buf self) in
  let buf := store_at (_rd_bufb BW (_hi32 cnt) BW) (ch_b BW (blk_ch blk)) buf in
  let buf := store_at (_rd_bufa BW 0 BW) (ch_a BW (blk_ch prev)) buf in
  let buf := store_at (_rd_bufb BW 0 BW) (ch_b BW (blk_ch prev)) buf in
  set_buf self buf.

(** the loop of [leaf_refill_block]: the masks [max == delta] per step *)
Fixpoint leaf_refill_steps (MODEL : gap_model) (BW : Z) (self : gaba_dp_context_s)
    (n : nat) (r : fill_regs) : list Z * fill_regs :=
  match n with
  | O => ([], r)
  | S n' =>
      let r := set_dir r (_dir_fetch (g_dir r)) in
      let r := if _dir_is_right (g_dir r)
               then _fill_right MODEL BW self (_fill_right_update_ptr r)
               else _fill_down MODEL BW self (_fill_down_update_ptr r) in
      let m := _mask_n (_eq_n (g_max r) (g_delta r)) in
      let '(ms, r') := leaf_refill_steps MODEL BW self n' r in
      (m :: ms, r')
  end.

Definition set_max (r : fill_regs) (max : vec) : fill_regs :=
  mk_regs (g_dh r) (g_dv r) (g_de r) (g_df r) (g_delta r) max (g_dir r)
    (g_offset r) (g_aptr r) (g_bptr r) (g_mask r).

(** [leaf_refill_block]: the array [mask_max_ptr] and the mask pairs the
    replay writes back into the block *)
Definition leaf_refill_block (MODEL : gap_model) (BW : Z) (self : gaba_dp_context_s)
    (len : Z) (blk prev : gaba_block_s) (compd_max : vec)
  : list Z * list gaba_mask_pair_u :=
  let self := fill_restore_fetch BW self blk prev in
  let r := set_max (_fill_load_context MODEL BW prev) compd_max in
  let '(ms, r) := leaf_refill_steps MODEL BW self (Z.to_nat len) r in
  (ms, g_mask r).

(** [leaf_detect_max_pos] *)
Fixpoint leaf_detect_max_pos (arr : list Z) (i : Z) (mask_max : Z) : Z * Z :=
  match arr with
  | [] => (0, 0)
  | m :: arr' =>
      let mask_update := Z.land m mask_max in
      if negb (mask_update =? 0) then (i, tzcnt mask_update)
      else leaf_detect_max_pos arr' (i + 1) mask_max
  end.

(** [leaf_save_coordinates] *)
Definition leaf_save_coordinates (BW : Z) (tail : gaba_joint_tail_s) (k : Z) (p q : Z)
  : gaba_leaf_s :=
  let blk := blk_at tail k in
  let prev := blk_at tail (k + 1) in
  let mask_idx := Z.land p (BLK - 1) in
  let filled_count := mask_idx + 1 in
  let bcnt := s32 (_dir_bcnt (_dir_load blk mask_idx)) in
  let acnt := s32 (filled_count - bcnt) in
  let ridx := _add_v2i32 (blk_aridx prev, blk_bridx prev)
                (_seta_v2i32 ((BW - 1 - q) - bcnt) (q - acnt)) in
  mk_leaf tail k (u32 (_lo32 ridx)) (u32 (_hi32 ridx)) (s32 p) (s32 q).

(** [leaf_save_phantom_coordinates] *)
Definition leaf_save_phantom_coordinates (tail : gaba_joint_tail_s) (k : Z) (mask_max : Z)
  : gaba_leaf_s :=
  mk_leaf tail k 0 0 (-1) (s32 (tzcnt mask_max)).

(** replace the first masks of block [k] of a tail by the replayed ones *)
Definition set_blk_mask (b : gaba_block_s) (ms : list gaba_mask_pair_u) : gaba_block_s :=
  mk_block (ms ++ skipn (length ms) (blk_mask b)) (blk_dh b) (blk_dv b) (blk_delta b)
    (blk_max b) (blk_dir b) (blk_offset b) (blk_aridx b) (blk_bridx b) (blk_md b)
    (blk_ch b) (blk_pad b).

Definition update_blk (t : gaba_joint_tail_s) (k : Z) (b : gaba_block_s) : gaba_joint_tail_s :=
  mk_tail (t_psum t) (t_p t) (t_ssum t) (t_max t) (t_stat t) (t_rem_len t) (t_tail t)
    (t_apos t) (t_bpos t) (t_alen t) (t_blen t) (t_aid t) (t_bid t)
    (firstn (Z.to_nat k) (t_blks t) ++ b :: skipn (Z.to_nat k + 1) (t_blks t)).

(** [leaf_search] *)
Definition leaf_search (MODEL : gap_model) (BW : Z) (self : gaba_dp_context_s)
    (tail : gaba_joint_tail_s) : gaba_leaf_s :=
  let '(max, offset, mask_max) := leaf_load_max_mask BW tail in
  let '(bmax, k, bp, bmask) := leaf_detect_max_block BW tail offset mask_max max in
  if bp =? -1 then leaf_save_phantom_coordinates tail k bmask
  else
    let len := MIN2 (t_p tail - bp) BLK in
    let '(arr, ms) := leaf_refill_block MODEL BW self len (blk_at tail k)
                        (blk_at tail (k + 1)) bmax in
    let '(lp, lq) := leaf_detect_max_pos arr 0 bmask in
    let tail := update_blk tail k (set_blk_mask (blk_at tail k) ms) in
    leaf_save_coordinates BW tail k (bp + lp) lq.

(* ------------------------------------------------------------------ *)
(** ** Traceback: work area and memory of the alignment object *)

(** [struct gaba_path_section_s] *)
Record gaba_path_section_s := mk_psec {
  ps_aid : Z; ps_bid : Z;
  ps_apos : Z; ps_bpos : Z;
  ps_alen : Z; ps_blen : Z;
  ps_ppos : Z
}.
Definition zero_section : gaba_path_section_s := mk_psec 0 0 0 0 0 0 0.
Definition _plen (s : gaba_path_section_s) : Z := u32 (ps_alen s + ps_blen s).

(** [struct gaba_path_intl_s]: [phead] / [ptail] are word indices into the
    path area, [shead] / [stail] record indices into the section area *)
Record gaba_path_intl_s := mk_path {
  phead : Z; ptail : Z;
  phofs : Z; ptofs : Z;
  shead : Z; stail : Z;
  gic : Z; gec : Z
}.

(** the two arrays behind a [struct gaba_alignment_s]: 32-bit path words
    and section records; a word or record never written reads as zero *)
Record aln_mem := mk_amem {
  words : gmap Z Z;
  secs : gmap Z gaba_path_section_s
}.
Definition word_at (m : aln_mem) (i : Z) : Z := default 0 (words m !! i).
Definition sec_at (m : aln_mem) (i : Z) : gaba_path_section_s :=
  default zero_section (secs m !! i).
Definition set_word (m : aln_mem) (i v : Z) : aln_mem :=
  mk_amem (<[ i := u32 v ]> (words m)) (secs m).
Definition set_sec (m : aln_mem) (i : Z) (s : gaba_path_section_s) : aln_mem :=
  mk_amem (words m) (<[ i := s ]> (secs m)).

(** unaligned 64-bit access to the word array (little endian) *)
Definition _loadu_u64 (m : aln_mem) (i : Z) : Z :=
  word_at m i + 2^32 * word_at m (i + 1).
Definition _storeu_u64 (m : aln_mem) (i v : Z) : aln_mem :=
  set_word (set_word m i (u64 v)) (i + 1) (Z.shiftr (u64 v) 32).

(** 64-bit shifts by a run-time count: the count is taken modulo 64, as
    the shift instructions do *)
Definition shl64 (x n : Z) : Z := u64 (Z.shiftl x (n mod 64)).
Definition shr64 (x n : Z) : Z := Z.shiftr (u64 x) (n mod 64).

(** [struct gaba_writer_work_s]; [l_blk] is a block index into the journal
    of [l_tail] (see [blk_at]) *)
Record gaba_writer_work_s := mk_work {
  l_path : gaba_path_intl_s;
  l_blk : Z;
  l_aidx : Z; l_bidx : Z;
  l_p : Z; l_q : Z;
  l_alen : Z; l_blen : Z;
  l_aid : Z; l_bid : Z;
  l_asum : Z; l_bsum : Z;
  l_asidx : Z; l_bsidx : Z;
  l_psum : Z; l_pspos : Z;
  l_tail : gaba_joint_tail_s;
  l_atail : gaba_joint_tail_s;
  l_btail : gaba_joint_tail_s
}.

(** the tail a [tail] pointer leads to; following the null link of the
    root tail has no meaning in C and yields the root tail again here *)
Definition deref_tail (t : gaba_joint_tail_s) : gaba_joint_tail_s :=
  match t_tail t with Some t' => t' | None => t end.

(** [for(tail = tail->tail; (tail->stat & flag) == 0; tail = tail->tail) {}] *)
Fixpoint skip_tails (fuel : nat) (flag : Z) (t : gaba_joint_tail_s) : gaba_joint_tail_s :=
  match fuel with
  | O => t
  | S fuel' =>
      if Z.land (t_stat t) flag =? 0 then skip_tails fuel' flag (deref_tail t) else t
  end.

(** the [while(idx <= 0)] loop of [trace_load_section_a] / [_b] *)
Fixpoint load_section_loop (fuel : nat) (flag : Z) (get_len : gaba_joint_tail_s -> Z)
    (tail : gaba_joint_tail_s) (len sum idx : Z) : gaba_joint_tail_s * Z * Z * Z :=
  match fuel with
  | O => (tail, len, sum, idx)
  | S fuel' =>
      if idx <=? 0 then
        let tail := skip_tails fuel flag (deref_tail tail) in
        let len := s32 (get_len tail) in
        load_section_loop fuel' flag get_len tail len (s32 (sum + len)) (s32 (idx + len))
      else (tail, len, sum, idx)
  end.

Definition set_sec_a (l : gaba_writer_work_s) (tail : gaba_joint_tail_s)
    (len sum idx : Z) : gaba_writer_work_s :=
  mk_work (l_path l) (l_blk l) idx (l_bidx l) (l_p l) (l_q l)
    len (l_blen l) (t_aid tail) (l_bid l) sum (l_bsum l) idx (l_bsidx l)
    (l_psum l) (l_pspos l) (l_tail l) tail (l_btail l).
Definition set_sec_b (l : gaba_writer_work_s) (tail : gaba_joint_tail_s)
    (len sum idx : Z) : gaba_writer_work_s :=
  mk_work (l_path l) (l_blk l) (l_aidx l) idx (l_p l) (l_q l)
    (l_alen l) len (l_aid l) (t_bid tail) (l_asum l) sum (l_asidx l) idx
    (l_psum l) (l_pspos l) (l_tail l) (l_atail l) tail.

(** [trace_load_section_a], [trace_load_section_b] *)
Definition trace_load_section_a (fuel : nat) (l : gaba_writer_work_s) : gaba_writer_work_s :=
  let tail := l_atail l in
  let len := s32 (t_alen tail) in
  let '(tail, len, sum, idx) :=
    load_section_loop fuel GABA_STATUS_UPDATE_A t_alen tail len len (s32 (l_aidx l + len)) in
  set_sec_a l tail len sum idx.
Definition trace_load_section_b (fuel : nat) (l : gaba_writer_work_s) : gaba_writer_work_s :=
  let tail := l_btail l in
  let len := s32 (t_blen tail) in
  let '(tail, len, sum, idx) :=
    load_section_loop fuel GABA_STATUS_UPDATE_B t_blen tail len len (s32 (l_bidx l + len)) in
  set_sec_b l tail len sum idx.

(** [trace_init_work] *)
Definition trace_init_work (leaf : gaba_leaf_s) (path : gaba_path_intl_s) : gaba_writer_work_s :=
  let tail := leaf_tail leaf in
  let idx := _sub_v2i32 _zero_v2i32 (s32 (leaf_aridx leaf), s32 (leaf_bridx leaf)) in
  mk_work path (leaf_blk leaf)
    (_lo32 idx) (_hi32 idx)
    (leaf_p leaf) (leaf_q leaf)
    0 0 (u32 (-1)) (u32 (-1))
    0 0
    (_lo32 idx) (_hi32 idx)
    (s64 (t_psum tail - t_p tail + leaf_p leaf)) 0
    tail tail tail.

(* ------------------------------------------------------------------ *)
(** ** Traceback: the walk over the mask journal *)

(** locals of [trace_forward_body] / [trace_reverse_body]; [x_ptr] is the
    index of [ptr] in [blk->mask], so [ptr == blk->mask - 1] is [-1] *)
Record trace_regs := mk_tregs {
  x_idx : v2; x_gc : v2;
  x_blk : Z;
  x_p : Z; x_q : Z;
  x_dir : gaba_dir_u;
  x_ptr : Z;
  x_path : Z; x_ofs : Z;
  x_path_array : Z
}.

(** the whole state the walk reads and writes *)
Record trace_state := mk_tstate {
  ts_r : trace_regs;
  ts_l : gaba_writer_work_s;
  ts_m : aln_mem
}.

Inductive trace_dir := Forward | Reverse.
Inductive loop_type := Head | Bulk | Tail.

(** the labels of the two bodies *)
Inductive trace_label :=
| L_loop_v_head | L_loop_d_mid | L_loop_d_tail | L_loop_h_head
| L_v_head (ty : loop_type) | L_h_head (ty : loop_type)
| L_d_head (ty : loop_type) | L_d_mid (ty : loop_type) | L_d_tail (ty : loop_type)
| L_index_break.

Definition hterm : v2 := (0, -1).
Definition dterm : v2 := (0, 0).
Definition vterm : v2 := (-1, 0).

Definition zero_mask : gaba_mask_pair_u := mk_mask 0 0 0 0.
Definition cur_blk (s : trace_state) : gaba_block_s := blk_at (l_tail (ts_l s)) (x_blk (ts_r s)).
Definition cur_mask (s : trace_state) : gaba_mask_pair_u :=
  let i := x_ptr (ts_r s) in
  if i <? 0 then zero_mask else nth (Z.to_nat i) (blk_mask (cur_blk s)) zero_mask.

(** [(mask.all >> q) & 0x01]: the shift count is taken modulo 32 *)
Definition mask_bit (m q : Z) : bool := Z.odd (Z.shiftr m (q mod 32)).

(** [_trace_test_diag_h] .. [_trace_test_gap_v] *)
Definition _trace_test_diag_h (s : trace_state) : bool :=
  mask_bit (mask_h (cur_mask s)) (x_q (ts_r s)).
Definition _trace_test_diag_v (s : trace_state) : bool :=
  mask_bit (mask_v (cur_mask s)) (x_q (ts_r s)).
Definition _trace_test_gap_h (MODEL : gap_model) (s : trace_state) : bool :=
  match MODEL with
  | LINEAR => mask_bit (mask_h (cur_mask s)) (x_q (ts_r s))
  | AFFINE => mask_bit (mask_e (cur_mask s)) (x_q (ts_r s))
  end.
Definition _trace_test_gap_v (MODEL : gap_model) (s : trace_state) : bool :=
  match MODEL with
  | LINEAR => mask_bit (mask_v (cur_mask s)) (x_q (ts_r s))
  | AFFINE => mask_bit (mask_f (cur_mask s)) (x_q (ts_r s))
  end.

(** [_trace_<type>_<x>_test_index]: only the tail loops look at the indices *)
Definition test_index (ty : loop_type) (term : v2) (s : trace_state) : bool :=
  match ty with
  | Tail => negb (_mask_v2i32 (_eq_v2i32 (x_idx (ts_r s)) term) =? 0)
  | _ => false
  end.

Definition upd_regs (s : trace_state) (f : trace_regs -> trace_regs) : trace_state :=
  mk_tstate (f (ts_r s)) (ts_l s) (ts_m s).

(** [_trace_<type>_v_update_index] adds [hterm], [_h_] adds [vterm] *)
Definition update_index (ty : loop_type) (term : v2) (s : trace_state) : trace_state :=
  match ty with
  | Tail => upd_regs s (fun r =>
      mk_tregs (_add_v2i32 (x_idx r) term) (x_gc r) (x_blk r) (x_p r) (x_q r)
        (x_dir r) (x_ptr r) (x_path r) (x_ofs r) (x_path_array r))
  | _ => s
  end.

(** [_trace_inc_gi] subtracts [vterm] from [gc], [_trace_inc_ge] [hterm] *)
Definition inc_gc (term : v2) (s : trace_state) : trace_state :=
  upd_regs s (fun r =>
    mk_tregs (x_idx r) (_sub_v2i32 (x_gc r) term) (x_blk r) (x_p r) (x_q r)
      (x_dir r) (x_ptr r) (x_path r) (x_ofs r) (x_path_array r)).
Definition _trace_inc_gi := inc_gc vterm.
Definition _trace_inc_ge := inc_gc hterm.

(** [_trace_forward_h_update_path_q] and its three siblings: push one
    path bit ([vertical] = a 1 bit), step [ptr], move [q], wind [dir] back *)
Definition update_path_q (d : trace_dir) (vertical : bool) (s : trace_state) : trace_state :=
  upd_regs s (fun r =>
    let pa := match d with
              | Forward => Z.lor (shl64 (x_path_array r) 1) (Z.b2z vertical)
              | Reverse => Z.lor (Z.shiftr (x_path_array r) 1)
                                 (if vertical then 0x8000000000000000 else 0)
              end in
    let q := x_q r + Z.b2z (_dir_is_down (x_dir r)) - Z.b2z vertical in
    mk_tregs (x_idx r) (x_gc r) (x_blk r) (x_p r) q
      (_dir_windback (x_dir r)) (x_ptr r - 1) (x_path r) (x_ofs r) pa).

(** [_trace_reload_ptr(_idx)] *)
Definition _trace_reload_ptr (i : Z) (s : trace_state) : trace_state :=
  let k := x_blk (ts_r s) + 1 in
  upd_regs s (fun r =>
    mk_tregs (x_idx r) (x_gc r) k (x_p r) (x_q r)
      (_dir_load (blk_at (l_tail (ts_l s)) k) i) i
      (x_path r) (x_ofs r) (x_path_array r)).

(** [_trace_forward_cap_update_path] / [_trace_reverse_cap_update_path] *)
Definition cap_update_path (d : trace_dir) (s : trace_state) : trace_state :=
  let r := ts_r s in
  let cnt := Z.land (x_p r) (BLK - 1) - x_ptr r in
  let n := x_ofs r + cnt in
  let m := match d with
           | Forward => _storeu_u64 (ts_m s) (x_path r - 1)
                          (shl64 (x_path_array r) (2 * BLK - n))
           | Reverse => _storeu_u64 (ts_m s) (x_path r)
                          (shr64 (x_path_array r) (2 * BLK - n))
           end in
  let moved := Z.b2z (negb (Z.land n BLK =? 0)) in
  let path := match d with Forward => x_path r - moved | Reverse => x_path r + moved end in
  mk_tstate
    (mk_tregs (x_idx r) (x_gc r) (x_blk r) (x_p r - cnt) (x_q r) (x_dir r) (x_ptr r)
       path (Z.land n (BLK - 1)) (x_path_array r))
    (ts_l s) m.

(** [_trace_forward_bulk_update_path] / [_trace_reverse_bulk_update_path] *)
Definition bulk_update_path (d : trace_dir) (s : trace_state) : trace_state :=
  let r := ts_r s in
  let m := match d with
           | Forward => _storeu_u64 (ts_m s) (x_path r - 1)
                          (shl64 (x_path_array r) (BLK - x_ofs r))
           | Reverse => _storeu_u64 (ts_m s) (x_path r)
                          (shr64 (x_path_array r) (BLK - x_ofs r))
           end in
  let path := match d with Forward => x_path r - 1 | Reverse => x_path r + 1 end in
  mk_tstate
    (mk_tregs (x_idx r) (x_gc r) (x_blk r) (x_p r - BLK) (x_q r) (x_dir r) (x_ptr r)
       path (x_ofs r) (x_path_array r))
    (ts_l s) m.

(** [_trace_forward_calc_index] (the reverse macro has the same body) *)
Definition calc_index (BW : Z) (s : trace_state) : trace_state :=
  let l := ts_l s in
  let blk := cur_blk s in
  upd_regs s (fun r =>
    let ridx := (blk_aridx blk, blk_bridx blk) in
    let sum := (l_asum l, l_bsum l) in
    let idx := _sub_v2i32 (_sub_v2i32 sum ridx) (_seta_v2i32 ((BW - 1) - x_q r) (x_q r)) in
    mk_tregs idx (x_gc r) (x_blk r) (x_p r) (x_q r) (x_dir r) (x_ptr r)
      (x_path r) (x_ofs r) (x_path_array r)).

(** [_trace_reload_tail(t)] *)
Definition _trace_reload_tail (s : trace_state) : trace_state :=
  let l := ts_l s in
  let psum := s64 (l_psum l - l_p l) in
  let old := l_tail l in
  let len := (s32 (t_alen old), s32 (t_blen old)) in
  let tail := deref_tail old in
  let p := s32 (t_p tail) - 1 in
  let mask := (GABA_STATUS_UPDATE_A, GABA_STATUS_UPDATE_B) in
  let stat := _set_v2i32 (t_stat tail) in
  let sum := (l_asum l, l_bsum l) in
  let sum := _sub_v2i32 sum
               (_and_v2i32 (_eq_v2i32 (_and_v2i32 stat mask) mask) len) in
  let l' := mk_work (l_path l) (l_blk l) (l_aidx l) (l_bidx l) (s32 (t_p tail)) (l_q l)
              (l_alen l) (l_blen l) (l_aid l) (l_bid l) (_lo32 sum) (_hi32 sum)
              (l_asidx l) (l_bsidx l) psum (l_pspos l) tail (l_atail l) (l_btail l) in
  let r := ts_r s in
  _trace_reload_ptr (Z.land p (BLK - 1))
    (mk_tstate
       (mk_tregs (x_idx r) (x_gc r) (-1) p (x_q r) (x_dir r) (x_ptr r)
          (x_path r) (x_ofs r) (x_path_array r))
       l' (ts_m s)).

Definition next_type (ty : loop_type) : loop_type :=
  match ty with Head => Bulk | Bulk => Tail | Tail => Tail end.

(** [_trace_<dir>_<type>_load_n(t, _jump_to)]: [jump] is the label named
    by the macro argument, [stay] the statement after the macro *)
Definition load_n (BW : Z) (d : trace_dir) (ty : loop_type) (jump stay : trace_label)
    (s : trace_state) : trace_label * trace_state :=
  if negb (x_ptr (ts_r s) =? -1) then (stay, s)
  else
    match ty with
    | Head =>
        let s := cap_update_path d s in
        (jump, _trace_reload_ptr (BLK - 1) s)
    | Bulk =>
        let s := bulk_update_path d s in
        let s := _trace_reload_ptr (BLK - 1) s in
        if x_p (ts_r s) <? BLK then (jump, calc_index BW s) else (stay, s)
    | Tail =>
        let s := cap_update_path d s in
        if x_p (ts_r s) <? 0 then
          if l_psum (ts_l s) <? l_p (ts_l s) - x_p (ts_r s) then (L_index_break, s)
          else (jump, _trace_reload_tail s)
        else (stay, _trace_reload_ptr (BLK - 1) s)
    end.

(** the label a [_next] of a tail loop points to is a dispatcher *)
Definition jump_label (ty : loop_type) (dispatch : trace_label)
    (mk : loop_type -> trace_label) : trace_label :=
  match ty with Tail => dispatch | _ => mk (next_type ty) end.

Definition dispatch (p : Z) (mk : loop_type -> trace_label) : trace_label :=
  if p <? 2 * BLK then mk Tail else mk Head.

(** one iteration of [_trace_<dir>_gap_loop(t, _type, _next, _label)] *)
Definition gap_loop_step (MODEL : gap_model) (BW : Z) (d : trace_dir) (ty : loop_type)
    (vertical : bool) (s : trace_state) : trace_label * trace_state :=
  let test_gap := if vertical then _trace_test_gap_v MODEL s else _trace_test_gap_h MODEL s in
  let here := if vertical then L_v_head else L_h_head in
  let disp := if vertical then L_loop_v_head else L_loop_h_head in
  if negb test_gap then (L_d_head ty, s)
  else if test_index ty (if vertical then vterm else hterm) s then (L_index_break, s)
  else
    let s := _trace_inc_ge s in
    let s := update_index ty (if vertical then hterm else vterm) s in
    let s := update_path_q d vertical s in
    load_n BW d ty (jump_label ty disp here) (here ty) s.

(** the three parts of [_trace_<dir>_diag_loop(t, _type, _next)]: the
    forward walk takes the horizontal half of a diagonal first, the
    reverse walk the vertical half *)
Definition first_vertical (d : trace_dir) : bool :=
  match d with Forward => false | Reverse => true end.

Definition diag_head_step (BW : Z) (d : trace_dir) (ty : loop_type) (s : trace_state)
  : trace_label * trace_state :=
  let v1 := first_vertical d in
  let test := if v1 then _trace_test_diag_v s else _trace_test_diag_h s in
  if test then ((if v1 then L_v_head ty else L_h_head ty), _trace_inc_gi s)
  else if test_index ty dterm s then (L_index_break, cap_update_path d s)
  else
    let s := update_index ty (if v1 then hterm else vterm) s in
    let s := update_path_q d v1 s in
    load_n BW d ty (jump_label ty L_loop_d_mid L_d_mid) (L_d_mid ty) s.

Definition diag_mid_step (BW : Z) (d : trace_dir) (ty : loop_type) (s : trace_state)
  : trace_label * trace_state :=
  let v2 := negb (first_vertical d) in
  let s := update_index ty (if v2 then hterm else vterm) s in
  let s := update_path_q d v2 s in
  load_n BW d ty (jump_label ty L_loop_d_tail L_d_tail) (L_d_tail ty) s.

Definition diag_tail_step (d : trace_dir) (ty : loop_type) (s : trace_state)
  : trace_label * trace_state :=
  let v2 := negb (first_vertical d) in
  let test := if v2 then _trace_test_diag_v s else _trace_test_diag_h s in
  if test then ((if v2 then L_v_head ty else L_h_head ty), _trace_inc_gi s)
  else (L_d_head ty, s).

(** one transfer of control inside a body *)
Definition trace_step (MODEL : gap_model) (BW : Z) (d : trace_dir) (lab : trace_label)
    (s : trace_state) : trace_label * trace_state :=
  match lab with
  | L_loop_v_head => (dispatch (x_p (ts_r s)) L_v_head, s)
  | L_loop_h_head => (dispatch (x_p (ts_r s)) L_h_head, s)
  | L_loop_d_mid => (dispatch (x_p (ts_r s)) L_d_mid, s)
  | L_loop_d_tail => (dispatch (x_p (ts_r s)) L_d_tail, s)
  | L_v_head ty => gap_loop_step MODEL BW d ty true s
  | L_h_head ty => gap_loop_step MODEL BW d ty false s
  | L_d_head ty => diag_head_step BW d ty s
  | L_d_mid ty => diag_mid_step BW d ty s
  | L_d_tail ty => diag_tail_step d ty s
  | L_index_break => (L_index_break, s)
  end.

Fixpoint trace_run (MODEL : gap_model) (BW : Z) (d : trace_dir) (fuel : nat)
    (lab : trace_label) (s : trace_state) : option trace_state :=
  match lab with
  | L_index_break => Some s
  | _ =>
      match fuel with
      | O => None
      | S fuel' =>
          let '(lab', s') := trace_step MODEL BW d lab s in
          trace_run MODEL BW d fuel' lab' s'
      end
  end.

(** [_trace_load_context] with [_trace_forward_load_context] /
    [_trace_reverse_load_context] *)
Definition trace_load_context (d : trace_dir) (l : gaba_writer_work_s) (m : aln_mem)
  : trace_state :=
  let path := match d with Forward => phead (l_path l) | Reverse => ptail (l_path l) end in
  let ofs := match d with Forward => phofs (l_path l) | Reverse => ptofs (l_path l) end in
  let pa := match d with
            | Forward => shr64 (_loadu_u64 m (path - 1)) (2 * BLK - ofs)
            | Reverse => shl64 (_loadu_u64 m path) (2 * BLK - ofs)
            end in
  let i := Z.land (l_p l) (BLK - 1) in
  mk_tstate
    (mk_tregs (l_aidx l, l_bidx l) _zero_v2i32 (l_blk l) (l_p l) (l_q l)
       (_dir_load (blk_at (l_tail l) (l_blk l)) i) i path ofs pa)
    l m.

(** [_trace_save_context] with the forward / reverse prefix *)
Definition trace_save_context (d : trace_dir) (s : trace_state) : gaba_writer_work_s * aln_mem :=
  let r := ts_r s in
  let l := ts_l s in
  let pt := l_path l in
  let g := _add_v2i32 (x_gc r) (gic pt, gec pt) in
  let pt' := match d with
             | Forward => mk_path (x_path r) (ptail pt) (x_ofs r) (ptofs pt)
                            (shead pt) (stail pt) (u32 (_lo32 g)) (u32 (_hi32 g))
             | Reverse => mk_path (phead pt) (x_path r) (phofs pt) (x_ofs r)
                            (shead pt) (stail pt) (u32 (_lo32 g)) (u32 (_hi32 g))
             end in
  (mk_work pt' (x_blk r) (_lo32 (x_idx r)) (_hi32 (x_idx r)) (s32 (x_p r)) (s32 (x_q r))
     (l_alen l) (l_blen l) (l_aid l) (l_bid l) (l_asum l) (l_bsum l)
     (l_asidx l) (l_bsidx l)
     (s64 (l_psum l - (l_p l - x_p r))) (l_pspos l)
     (l_tail l) (l_atail l) (l_btail l),
   ts_m s).

(** [trace_forward_body] enters at the vertical loop, [trace_reverse_body]
    at the horizontal one; [None] when [fuel] transfers do not reach
    [_trace_*_index_break] *)
Definition trace_body (MODEL : gap_model) (BW : Z) (d : trace_dir) (fuel : nat)
    (l : gaba_writer_work_s) (m : aln_mem) : option (gaba_writer_work_s * aln_mem) :=
  let entry := match d with Forward => L_loop_v_head | Reverse => L_loop_h_head end in
  match trace_run MODEL BW d fuel entry (trace_load_context d l m) with
  | None => None
  | Some s => Some (trace_save_context d s)
  end.

Definition set_sidx (l : gaba_writer_work_s) (pt : gaba_path_intl_s) (idx : v2) (pspos : Z)
  : gaba_writer_work_s :=
  mk_work pt (l_blk l) (l_aidx l) (l_bidx l) (l_p l) (l_q l)
    (l_alen l) (l_blen l) (l_aid l) (l_bid l) (l_asum l) (l_bsum l)
    (_lo32 idx) (_hi32 idx) (l_psum l) pspos (l_tail l) (l_atail l) (l_btail l).

(** [trace_forward_push] *)
Definition trace_forward_push (l : gaba_writer_work_s) (m : aln_mem)
  : gaba_writer_work_s * aln_mem :=
  let pt := l_path l in
  let sh := shead pt - 1 in
  let idx := (l_aidx l, l_bidx l) in
  let sidx := (l_asidx l, l_bsidx l) in
  let path_array := Z.shiftr (_loadu_u64 m (phead pt)) (32 - phofs pt) in
  let mask := _eq_v2i32 idx _zero_v2i32 in
  let adj := _and_v2i32 (_andn_v2i32 mask (_swap_v2i32 mask))
               (_seta_v2i32 (tzcnt (u64 (Z.lnot path_array)) - 1) (tzcnt path_array)) in
  let idx := _min_v2i32 (_add_v2i32 idx adj) sidx in
  let tlen := _sub_v2i32 sidx idx in
  let rec := mk_psec (l_aid l) (l_bid l) (u32 (_lo32 idx)) (u32 (_hi32 idx))
               (u32 (_lo32 tlen)) (u32 (_hi32 tlen)) 0 in
  let pt' := mk_path (phead pt) (ptail pt) (phofs pt) (ptofs pt) sh (stail pt)
               (gic pt) (gec pt) in
  (set_sidx l pt' idx (l_pspos l), set_sec m sh rec).

(** [trace_reverse_push] *)
Definition trace_reverse_push (l : gaba_writer_work_s) (m : aln_mem)
  : gaba_writer_work_s * aln_mem :=
  let pt := l_path l in
  let mask := _set_v2i32 0x01 in
  let len := (l_alen l, l_blen l) in
  let id := (l_aid l, l_bid l) in
  let idx := (l_aidx l, l_bidx l) in
  let sidx := (l_asidx l, l_bsidx l) in
  let tlen := _sub_v2i32 sidx idx in
  let plen := _lo32 tlen + _hi32 tlen in
  let ppos := l_pspos l in
  let id' := _xor_v2i32 id mask in
  let pos := _sub_v2i32 len sidx in
  let rec := mk_psec (u32 (_lo32 id')) (u32 (_hi32 id')) (u32 (_lo32 pos)) (u32 (_hi32 pos))
               (u32 (_lo32 tlen)) (u32 (_hi32 tlen)) (u32 ppos) in
  let pt' := mk_path (phead pt) (ptail pt) (phofs pt) (ptofs pt) (shead pt) (stail pt + 1)
               (gic pt) (gec pt) in
  (set_sidx l pt' idx (s64 (ppos + plen)), set_sec m (stail pt) rec).

(** outcome of [trace_*_generate_alignment]: the return value [0] with
    the path written back by [trace_clean_work], the return value [-1],
    or not enough [fuel] *)
Inductive generate_result :=
| Generated (path : gaba_path_intl_s) (m : aln_mem)
| PathLost
| GenOutOfFuel.

(** the [while(self->w.l.psum >= 0)] loop of the two generators *)
Fixpoint generate_loop (MODEL : gap_model) (BW : Z) (d : trace_dir) (fuel : nat)
    (l : gaba_writer_work_s) (m : aln_mem) : generate_result :=
  if 0 <=? l_psum l then
    match fuel with
    | O => GenOutOfFuel
    | S fuel' =>
        let l := if l_aidx l <=? 0 then trace_load_section_a fuel l else l in
        let l := if l_bidx l <=? 0 then trace_load_section_b fuel l else l in
        match trace_body MODEL BW d fuel l m with
        | None => GenOutOfFuel
        | Some (l, m) =>
            if 32 <=? u32 (l_q l) then PathLost
            else
              let '(l, m) := match d with
                             | Forward => trace_forward_push l m
                             | Reverse => trace_reverse_push l m
                             end in
              generate_loop MODEL BW d fuel' l m
        end
    end
  else Generated (l_path l) m.

(** [trace_forward_generate_alignment], [trace_reverse_generate_alignment] *)
Definition trace_forward_generate_alignment (MODEL : gap_model) (BW : Z) (fuel : nat)
    (leaf : gaba_leaf_s) (path : gaba_path_intl_s) (m : aln_mem) : generate_result :=
  generate_loop MODEL BW Forward fuel (trace_init_work leaf path) m.
Definition trace_reverse_generate_alignment (MODEL : gap_model) (BW : Z) (fuel : nat)
    (leaf : gaba_leaf_s) (path : gaba_path_intl_s) (m : aln_mem) : generate_result :=
  generate_loop MODEL BW Reverse fuel (trace_init_work leaf path) m.

(* ------------------------------------------------------------------ *)
(** ** Traceback: building the alignment object *)

(** Modelled from the spec: [struct gaba_trace_params_s] is declared in
    [gaba.h] (not part of [src/]).  [tp_lmm] tells whether the caller
    supplied its own allocator, [tp_sec] is [None] for a null [sec]. *)
Record gaba_trace_params_s := mk_tparams {
  tp_lmm : bool;
  tp_sec : option (list gaba_path_section_s);
  tp_slen : Z;
  tp_k : Z
}.
Definition default_params : gaba_trace_params_s := mk_tparams false None 0 0.

(** [struct gaba_alignment_s] with the arrays it points to read out *)
Record gaba_alignment_s := mk_aln {
  aln_lmm : bool;
  aln_score : Z;
  aln_xcnt : Z; aln_gicnt : Z; aln_gecnt : Z;
  aln_rapos : Z; aln_rbpos : Z;
  aln_rppos : Z; aln_rsidx : Z;
  aln_slen : Z;
  aln_sec : list gaba_path_section_s;
  aln_path_len : Z;
  aln_path : list Z
}.

(** [trace_init_alignment]: section record [0] is [msec[0]], path word [0]
    the first word behind the section array *)
Definition trace_init_alignment (self : gaba_dp_context_s)
    (fw_tail rv_tail : gaba_joint_tail_s) (params : gaba_trace_params_s)
  : Z * Z * gaba_path_intl_s * gaba_path_intl_s * aln_mem :=
  let ssum := u64 (t_ssum fw_tail + t_ssum rv_tail) in
  let psum := u64 (_roundup (MAX2 (t_psum fw_tail) 1) 32
                   + _roundup (MAX2 (t_psum rv_tail) 1) 32) in
  let sec_len := u64 (2 * ssum) in
  let path_len := u64 (_roundup (Z.quot psum 32) 4 + 2) in
  let size := u64 (80 + 4 * (path_len + 4) + 32 * (sec_len + 1)
                   + k_head_margin (dp_k self) + k_tail_margin (dp_k self)) in
  let score := s64 (t_max fw_tail + t_max rv_tail + k_m (dp_k self) * tp_k params) in
  let rv := mk_path 2 2 0 0 1 1 0 0 in
  let fw := mk_path (2 + path_len) (2 + path_len) 0 0 (1 + sec_len) (1 + sec_len) 0 0 in
  let m := mk_amem ∅ ∅ in
  let m := set_sec m 0 zero_section in
  let m := set_word (set_word m 1 0) 2 0 in
  let m := set_word (set_word m (ptail fw) 0) (ptail fw + 1) 0 in
  (size, score, rv, fw, m).

(** [trace_cat_path]: [src_word] reads the source path, which for the
    seed is a local array *)
Fixpoint cat_path_loop (src_word : Z -> Z) (n : nat) (sh dt ofs prev : Z) (m : aln_mem)
  : Z * Z * aln_mem :=
  match n with
  | O => (dt, prev, m)
  | S n' =>
      let curr := src_word sh in
      let m := set_word m dt (Z.lor prev (Z.shiftl curr ofs)) in
      cat_path_loop src_word n' (sh + 1) (dt + 1) ofs (Z.shiftr curr (32 - ofs)) m
  end.

Definition trace_cat_path (dst src : gaba_path_intl_s) (src_word : Z -> Z) (m : aln_mem)
  : gaba_path_intl_s * aln_mem :=
  let sh := phead src in
  let st := ptail src in
  let dt := ptail dst in
  let prev_array := Z.land (word_at m dt) (Z.shiftl 1 (ptofs dst) - 1) in
  let curr_array := Z.shiftr (src_word sh) (32 - phofs src) in
  let sh := sh + 1 in
  let m := set_word m dt (Z.lor prev_array (Z.shiftl curr_array (ptofs dst))) in
  let m := set_word m (dt + 1) (Z.shiftr curr_array (32 - ptofs dst)) in
  let dt := dt + Z.b2z (negb (Z.land (ptofs dst + phofs src) 32 =? 0)) in
  let ofs := Z.land (ptofs dst + phofs src) 31 in
  let '(dt, ofs, m) :=
    if sh <=? st then
      let prev_array := word_at m dt in
      let '(dt, prev_array, m) :=
        cat_path_loop src_word (Z.to_nat (st - sh + 1)) sh dt ofs prev_array m in
      let m := set_word m dt prev_array in
      (dt - Z.b2z (negb (Z.land (ofs + ptofs src) 32 =? 0)),
       Z.land (ofs + ptofs src) 31, m)
    else (dt, ofs, m) in
  let m := set_word (set_word m (dt + 1) 0) (dt + 2) 0 in
  (mk_path (phead dst) dt (phofs dst) ofs (shead dst) (stail dst) (gic dst) (gec dst), m).

(** [struct trace_boundary_s] *)
Record trace_boundary_s := mk_bound { b_ptr : Z; b_ppos : Z }.

Definition add_len (s t : gaba_path_section_s) : gaba_path_section_s :=
  mk_psec (ps_aid s) (ps_bid s) (ps_apos s) (ps_bpos s)
    (u32 (ps_alen s + ps_alen t)) (u32 (ps_blen s + ps_blen t)) (ps_ppos s).
Definition set_ppos (s : gaba_path_section_s) (ppos : Z) : gaba_path_section_s :=
  mk_psec (ps_aid s) (ps_bid s) (ps_apos s) (ps_bpos s) (ps_alen s) (ps_blen s) (u32 ppos).

Fixpoint cat_section_loop (src : list gaba_path_section_s) (dt ppos : Z) (m : aln_mem)
  : Z * aln_mem :=
  match src with
  | [] => (dt, m)
  | s :: src' => cat_section_loop src' (dt + 1) (s64 (ppos + _plen s)) (set_sec m dt (set_ppos s ppos))
  end.

(** [trace_cat_section]: [src] lists the records from [src->shead] up to
    [src->stail] *)
Definition trace_cat_section (dst : gaba_path_intl_s) (src : list gaba_path_section_s)
    (m : aln_mem) : trace_boundary_s * gaba_path_intl_s * aln_mem :=
  let dh := shead dst in
  let dt := stail dst in
  let last := sec_at m (dt - 1) in
  let ppos := s64 (ps_ppos last + _plen last) in
  let empty := match src with [] => true | _ => false end in
  let b := mk_bound (dt - Z.b2z empty) (if empty then _plen last else 0) in
  let '(b, src, ppos, m) :=
    match src with
    | s :: src' =>
        if negb (dh =? dt) && negb (ps_apos s =? 0) && negb (ps_bpos s =? 0) then
          (mk_bound (b_ptr b - 1) (_plen (sec_at m (b_ptr b - 1))),
           src', s64 (ppos + _plen s), set_sec m (dt - 1) (add_len last s))
        else (b, src, ppos, m)
    | [] => (b, src, ppos, m)
    end in
  let '(dt, m) := cat_section_loop src dt ppos m in
  (b, mk_path (phead dst) (ptail dst) (phofs dst) (ptofs dst) dh dt (gic dst) (gec dst), m).

(** the records between two section pointers *)
Definition read_secs (m : aln_mem) (sh st : Z) : list gaba_path_section_s :=
  map (fun i => sec_at m (sh + i)) (seqZ (st - sh)).

(** [trace_finalize_path]: the length and the path words, the two
    terminator words included *)
Definition trace_finalize_path (p : gaba_path_intl_s) (m : aln_mem) : Z * list Z :=
  let len := s64 (32 * (ptail p - phead p) + ptofs p) in
  let m := set_word m (ptail p)
             (Z.lor (word_at m (ptail p)) (u32 (Z.shiftl 0x55555555 (ptofs p)))) in
  let m := set_word m (ptail p + 1) 0x55555555 in
  (len, map (fun i => word_at m (phead p + i)) (seqZ (ptail p - phead p + 2))).

(** [trace_refine_alignment] *)
Definition trace_refine_alignment (self : gaba_dp_context_s) (score : Z)
    (rv fw : gaba_path_intl_s) (m : aln_mem) (params : gaba_trace_params_s)
  : gaba_alignment_s :=
  let '(rapos, rbpos, b, rv', m') :=
    match tp_sec params with
    | Some sec =>
        let s0 := nth 0 sec zero_section in
        let seed := fun i : Z => 0x55555555 in
        let ss := mk_path 0 0 (u32 (2 * tp_k params)) 0 0 (tp_slen params) 0 0 in
        let '(b, rv, m) := trace_cat_section rv (firstn (Z.to_nat (tp_slen params)) sec) m in
        let '(rv, m) := trace_cat_path rv ss seed m in
        let '(_, rv, m) := trace_cat_section rv (read_secs m (shead fw) (stail fw)) m in
        let '(rv, m) := trace_cat_path rv fw (word_at m) m in
        (ps_apos s0, ps_bpos s0, b, rv, m)
    | None =>
        let last := sec_at m (stail rv - 1) in
        let first := sec_at m (shead fw) in
        let rapos := if shead fw =? stail fw
                     then u32 (ps_apos last + ps_alen last) else ps_apos first in
        let rbpos := if shead fw =? stail fw
                     then u32 (ps_bpos last + ps_blen last) else ps_bpos first in
        let '(b, rv, m) := trace_cat_section rv (read_secs m (shead fw) (stail fw)) m in
        let '(rv, m) := trace_cat_path rv fw (word_at m) m in
        (rapos, rbpos, b, rv, m)
    end in
  let '(len, path) := trace_finalize_path rv' m' in
  let k := dp_k self in
  let gic_ := s64 (gic fw + gic rv) in
  let gec_ := s64 (gec fw + gec rv) in
  let xcnt := Z.quot (k_m k * Z.shiftr (len - gec_) 1 + k_gi k * gic_ + k_ge k * gec_ - score)
                     (k_m k - k_x k) in
  mk_aln (tp_lmm params) score xcnt gic_ gec_ rapos rbpos
    (u32 (b_ppos b)) (u32 (b_ptr b - shead rv'))
    (u32 (stail rv' - shead rv'))
    (read_secs m' (shead rv') (stail rv'))
    len path.

(** outcome of [gaba_dp_trace]: an alignment, the null pointer, a write
    through the null pointer the arena returned (the source does not test
    the result of [gaba_dp_malloc]), or not enough [fuel] *)
Inductive trace_result :=
| Traced (self : gaba_dp_context_s) (aln : gaba_alignment_s)
| TraceNull
| TraceFault
| TraceOutOfFuel.

(** [gaba_dp_trace].  A caller-supplied allocator ([tp_lmm]) lives in
    [lmm.h], outside [src/]; it is taken to hand out the block asked for. *)
Definition gaba_dp_trace (MODEL : gap_model) (BW : Z) (w : world) (fuel : nat)
    (self : gaba_dp_context_s)
    (fw_tail rv_tail : option gaba_joint_tail_s)
    (params : option gaba_trace_params_s) : trace_result :=
  let fw_tail := match fw_tail with Some t => t | None => _ptail self end in
  let rv_tail := match rv_tail with Some t => t | None => _ptail self end in
  let params := match params with Some p => p | None => default_params end in
  let fw_leaf := leaf_search MODEL BW self fw_tail in
  let rv_leaf := leaf_search MODEL BW self rv_tail in
  let '(size, score, rv, fw, m) := trace_init_alignment self fw_tail rv_tail params in
  let allocated :=
    if tp_lmm params then Some self
    else match gaba_dp_malloc w self size with
         | Some (_, self') => Some self'
         | None => None
         end in
  match allocated with
  | None => TraceFault
  | Some self =>
      match trace_forward_generate_alignment MODEL BW fuel fw_leaf fw m with
      | GenOutOfFuel => TraceOutOfFuel
      | PathLost => TraceNull
      | Generated fw m =>
          match trace_reverse_generate_alignment MODEL BW fuel rv_leaf rv m with
          | GenOutOfFuel => TraceOutOfFuel
          | PathLost => TraceNull
          | Generated rv m => Traced self (trace_refine_alignment self score rv fw m params)
          end
      end
  end.

(** [gaba_dp_search_max] *)
Fixpoint search_max_loop (fuel : nat) (flag : Z) (get_len : gaba_joint_tail_s -> Z)
    (tail : gaba_joint_tail_s) (idx : Z) : Z :=
  match fuel with
  | O => idx
  | S fuel' =>
      if idx <=? 0 then
        let tail := skip_tails fuel flag (deref_tail tail) in
        search_max_loop fuel' flag get_len tail (s32 (idx + get_len tail))
      else idx
  end.

Definition gaba_dp_search_max (MODEL : gap_model) (BW : Z) (fuel : nat)
    (self : gaba_dp_context_s) (tail : gaba_joint_tail_s) : Z * Z :=
  let leaf := leaf_search MODEL BW self tail in
  let aidx := s32 (t_alen tail - leaf_aridx leaf) in
  let bidx := s32 (t_blen tail - leaf_bridx leaf) in
  (u32 (search_max_loop fuel GABA_STATUS_UPDATE_A t_alen tail aidx - 1),
   u32 (search_max_loop fuel GABA_STATUS_UPDATE_B t_blen tail bidx - 1)).

(* ------------------------------------------------------------------ *)
(** ** The unit-test harness of [gaba.c] *)

(** [enum bases] of [unittest_encode_base] *)
Definition base_A : Z := 0x01.
Definition base_C : Z := 0x02.
Definition base_G : Z := 0x04.
Definition base_T : Z := 0x08.

(** [gaba_build_section(id, base, len)] *)
Definition gaba_build_section (id base len : Z) : gaba_section_s := mk_section id len base.

(** [struct unittest_sections_s] *)
Record unittest_sections_s := mk_usec {
  us_a : Z; us_b : Z;
  us_alim : Z; us_blim : Z;
  us_alen : Z; us_blen : Z;
  afsec : gaba_section_s; aftail : gaba_section_s;
  bfsec : gaba_section_s; bftail : gaba_section_s
}.

(** the address [malloc] hands to [unittest_build_seqs], after the header *)
Definition unittest_ca : Z := 0x10000.

(** [unittest_build_seqs]: [a] and [b] are the encoded sequences, the
    last 20 symbols of each forming the tail section *)
Definition unittest_build_seqs (a b : list Z) : unittest_sections_s :=
  let atot := Z.of_nat (length a) in
  let btot := Z.of_nat (length b) in
  let alen := u32 (atot - 20) in
  let blen := u32 (btot - 20) in
  let ca := unittest_ca in
  let cb := ca + atot + 1 in
  mk_usec ca cb 0x800000000000 0x800000000000 atot btot
    (gaba_build_section 0 ca alen) (gaba_build_section 2 (ca + alen) 20)
    (gaba_build_section 4 cb blen) (gaba_build_section 6 (cb + blen) 20).

(** the bytes [unittest_build_seqs] writes: [ca], a zero, [cb], a zero and
    the zeroed margin; every other address reads as zero *)
Definition unittest_mem (a b : list Z) : Z -> Z :=
  fun addr =>
    let ca := unittest_ca in
    let cb := ca + Z.of_nat (length a) + 1 in
    if (ca <=? addr) && (addr <? ca + Z.of_nat (length a))
    then nth (Z.to_nat (addr - ca)) a 0
    else if (cb <=? addr) && (addr <? cb + Z.of_nat (length b))
    then nth (Z.to_nat (addr - cb)) b 0
    else 0.

(** a host whose allocator always succeeds, with fresh arena memory zeroed *)
Definition unittest_world (a b : list Z) : world :=
  mk_world (unittest_mem a b) (repeat 0 32) (fun _ => Some 0x1000000).

(** [gaba_init] followed by [gaba_dp_init], as in [unittest_init] *)
Definition unittest_dp_init (MODEL : gap_model) (BW : Z) (w : world) (params : gaba_params_s)
    (s : unittest_sections_s) : option gaba_dp_context_s :=
  match gaba_init MODEL BW (host w) (Some params) with
  | None => None
  | Some ctx => gaba_dp_init BW w ctx (us_alim s) (us_blim s)
  end.

(** the parameter sets of the unit tests: linear and affine *)
Definition unittest_linear_params : gaba_params_s := mk_params 2 3 0 6 100 0 0 0 None.
Definition unittest_affine_params : gaba_params_s := mk_params 2 3 5 1 100 0 0 0 None.

(** a chain of fills: root fill on the first pair of sections, then one
    fill per further pair; the tails are listed oldest first *)
Fixpoint fill_chain (MODEL : gap_model) (BW : Z) (w : world) (fuel : nat)
    (self : gaba_dp_context_s) (f : gaba_joint_tail_s)
    (secs : list (gaba_section_s * gaba_section_s))
  : option (gaba_dp_context_s * list gaba_joint_tail_s) :=
  match secs with
  | [] => Some (self, [])
  | (a, b) :: secs' =>
      match gaba_dp_fill MODEL BW w fuel self f a b with
      | Filled self' f' =>
          match fill_chain MODEL BW w fuel self' f' secs' with
          | Some (self'', fs) => Some (self'', f' :: fs)
          | None => None
          end
      | _ => None
      end
  end.

Definition fill_root_chain (MODEL : gap_model) (BW : Z) (w : world) (fuel : nat)
    (self : gaba_dp_context_s) (a : gaba_section_s) (apos : Z) (b : gaba_section_s) (bpos : Z)
    (secs : list (gaba_section_s * gaba_section_s))
  : option (gaba_dp_context_s * list gaba_joint_tail_s) :=
  match gaba_dp_fill_root MODEL BW w fuel self a apos b bpos with
  | Filled self' f =>
      match fill_chain MODEL BW w fuel self' f secs with
      | Some (self'', fs) => Some (self'', f :: fs)
      | None => None
      end
  | _ => None
  end.

(* ------------------------------------------------------------------ *)
(** ** The properties as the specification words them *)



(** the two symbols a lane of a char vector packs: sequence A in the low
    nibble, sequence B in the high nibble *)
Definition lane_a (ch : vec) (x : Z) : Z := Z.land (u8 (nth (Z.to_nat x) ch 0)) 0x0f.
Definition lane_b (ch : vec) (y : Z) : Z := Z.shiftr (u8 (nth (Z.to_nat y) ch 0)) 4.

(** the symbol of A in lane [x] matches the symbol of B in lane [y]; one
    step along a diagonal lowers [x] by one and raises [y] by one *)
Definition diag_match (ch : vec) (x y : Z) : bool :=
  (0 <=? x) && (0 <=? y) && negb (Z.land (lane_a ch x) (lane_b ch y) =? 0).

(** [n] consecutive matches down the diagonal that starts at lanes [(x, y)] *)
Fixpoint diag_run (ch : vec) (n : nat) (x y : Z) : bool :=
  match n with
  | O => true
  | S n' => diag_match ch x y && diag_run ch n' (x - 1) (y + 1)
  end.

(** some diagonal of the [BW]-wide char vector holds a run of [tf] matches *)
Definition spec_has_run (BW : Z) (tf : Z) (ch : vec) : bool :=
  existsb (fun x => existsb (fun y => diag_run ch (Z.to_nat tf) x y) (seqZ BW)) (seqZ BW).

(** the verdict of the ungapped filter as the specification describes it *)
Definition spec_gapless_filter (BW : Z) (tf : Z) (ch : vec) : Z :=
  if spec_has_run BW tf ch then CONT else TERM.

(** the positions the filter of [gaba.c] looks at: 16 steps down the
    diagonal through lanes [(15, 17)] and its two neighbours *)
Definition filter_hit (ch : vec) (k : Z) : bool :=
  ((k <=? 13) && diag_match ch (15 - k) (18 + k))
  || ((k <=? 14) && diag_match ch (15 - k) (17 + k))
  || ((k <=? 14) && diag_match ch (14 - k) (17 + k)).
Definition filter_count (ch : vec) : Z :=
  fold_right (fun k n => Z.b2z (filter_hit ch k) + n) 0 (seqZ 16).

(** bit [i] of a path stored in 32-bit words *)
Definition path_bit (path : list Z) (i : Z) : bool :=
  Z.testbit (nth (Z.to_nat (i / 32)) path 0) (i mod 32).
(** the number of bits equal to [b] among the first [len] bits of a path *)
Definition count_path_bits (b : bool) (path : list Z) (len : Z) : Z :=
  fold_right (fun i n => Z.b2z (Bool.eqb (path_bit path i) b) + n) 0 (seqZ len).
Definition sum_alen (secs : list gaba_path_section_s) : Z :=
  fold_right (fun s n => ps_alen s + n) 0 secs.
Definition sum_blen (secs : list gaba_path_section_s) : Z :=
  fold_right (fun s n => ps_blen s + n) 0 secs.


(* ------------------------------------------------------------------ *)
(** ** Concrete inputs *)



(** a DP context right after [gaba_dp_init]: one region of
    [MEM_INIT_SIZE] bytes, nothing chained behind it *)
Definition arena_world : world := unittest_world [] [].
Definition arena_fresh : option gaba_dp_context_s :=
  unittest_dp_init LINEAR 32 arena_world unittest_linear_params (unittest_build_seqs [] []).

(** the context [arena_fresh] holds *)
Definition arena_self : gaba_dp_context_s :=
  match arena_fresh with
  | Some self => self
  | None =>
      mk_dp 0 0 0 ∅ 0 0 0 0 0 0 0 0 0 []
        (gaba_init_fill_dp_context LINEAR unittest_linear_params)
        (gaba_init_fill_phantom LINEAR 32 unittest_linear_params
           (gaba_init_fill_middle_delta LINEAR 32 unittest_linear_params))
  end.

(** the last tail of a chain of fills *)
Definition last_tail (r : option (gaba_dp_context_s * list gaba_joint_tail_s))
  : option (gaba_dp_context_s * gaba_joint_tail_s) :=
  match r with
  | Some (self, f :: fs) => Some (self, List.last fs f)
  | _ => None
  end.

(** a short match followed by symbols that never match, scored with a
    mismatch penalty of [10] under the X-drop threshold of the unit tests *)
Definition steep_params : gaba_params_s := mk_params 2 10 0 6 100 0 0 0 None.
Definition seq_drop_a : list Z := repeat base_A 8 ++ repeat base_G 36.
Definition seq_drop_b : list Z := repeat base_A 8 ++ repeat base_C 36.


(** the same sequences cut after 34 symbols, then two empty sections *)
Definition empty_chain : option (gaba_dp_context_s * list gaba_joint_tail_s) :=
  let s := unittest_build_seqs seq_drop_a seq_drop_b in
  let w := unittest_world seq_drop_a seq_drop_b in
  match unittest_dp_init LINEAR 32 w steep_params s with
  | Some self =>
      fill_root_chain LINEAR 32 w 1000 self (afsec s) 0 (bfsec s) 0
        [(gaba_build_section 2 (us_a s + 24) 10, gaba_build_section 6 (us_b s + 24) 10);
         (gaba_build_section 8 (us_a s + 34) 0, gaba_build_section 10 (us_b s + 34) 0)]
  | None => None
  end.

(** the deletion test of the unit tests, ["GACGTACGT"] against
    ["ACGTACGT"], entered one symbol into a section of A that holds one
    more symbol in front *)
Definition seq_del_a : list Z :=
  [base_T; base_G; base_A; base_C; base_G; base_T; base_A; base_C; base_G; base_T]
  ++ repeat base_G 20.
Definition seq_del_b : list Z :=
  [base_A; base_C; base_G; base_T; base_A; base_C; base_G; base_T] ++ repeat base_C 20.

Definition del_chain (MODEL : gap_model) : option (gaba_dp_context_s * list gaba_joint_tail_s) :=
  let s := unittest_build_seqs seq_del_a seq_del_b in
  let w := unittest_world seq_del_a seq_del_b in
  match unittest_dp_init MODEL 32 w
          (match MODEL with LINEAR => unittest_linear_params | AFFINE => unittest_affine_params end)
          s with
  | Some self =>
      fill_root_chain MODEL 32 w 1000 self (afsec s) 1 (bfsec s) 0 [(aftail s, bftail s)]
  | None => None
  end.

(** [gaba_dp_trace(dp, f, NULL, NULL)] from the last tail of that chain *)
Definition del_trace (MODEL : gap_model) : trace_result :=
  match last_tail (del_chain MODEL) with
  | Some (self, f) =>
      gaba_dp_trace MODEL 32 (unittest_world seq_del_a seq_del_b) 1000 self (Some f) None None
  | None => TraceFault
  end.

(** the unit-test scores with a filter threshold *)
Definition filter_params (tf : Z) : gaba_params_s := mk_params 2 3 0 6 100 tf 0 0 None.

(** four matches in a row on the main diagonal, nothing else *)
Definition seq_run_a : list Z := [base_A; base_C; base_G; base_T] ++ repeat base_G 36.
Definition seq_run_b : list Z := [base_A; base_C; base_G; base_T] ++ repeat base_C 36.
(** five matches on the main diagonal, no two of them adjacent *)
Definition seq_scatter_a : list Z :=
  [base_A; base_G; base_A; base_G; base_A; base_G; base_A; base_G; base_A; base_G]
  ++ repeat base_G 30.
Definition seq_scatter_b : list Z :=
  [base_A; base_T; base_A; base_T; base_A; base_T; base_A; base_T; base_A; base_T]
  ++ repeat base_C 30.

(** the root fill on the first sections of a pair, linear model, [BW = 32] *)
Definition fill_root_filter (tf : Z) (a b : list Z) : fill_result :=
  let s := unittest_build_seqs a b in
  let w := unittest_world a b in
  match unittest_dp_init LINEAR 32 w (filter_params tf) s with
  | Some self => gaba_dp_fill_root LINEAR 32 w 1000 self (afsec s) 0 (bfsec s) 0
  | None => FillNull
  end.

(** the phantom block of a fill: the oldest block of its journal *)
Definition phantom_of (T : gaba_joint_tail_s) : gaba_block_s :=
  List.last (t_blks T) empty_block.





(** the context of [fill_root_filter 4 seq_run_a seq_run_b] once the two
    sections are loaded *)
Definition run_self : gaba_dp_context_s :=
  let s := unittest_build_seqs seq_run_a seq_run_b in
  fill_load_section
    (match unittest_dp_init LINEAR 32 (unittest_world seq_run_a seq_run_b) (filter_params 4) s with
     | Some self => self
     | None => arena_self
     end)
    (afsec s) (bfsec s) INT64_MAX.

(* ------------------------------------------------------------------ *)
(** ** Predicates and terms the theorems are stated with *)

(** the three values a fill loop leaves in [stat] *)
Definition stat_class (s : Z) : Prop := s = CONT \/ s = UPDATE \/ s = TERM.

(** what stands behind a [TERM]: the X-drop test is negative on the block,
    or the ungapped filter rejects its char vector *)
Definition term_cause (BW : Z) (self : gaba_dp_context_s) (b : gaba_block_s) : Prop :=
  fill_test_xdrop BW self b < 0 \/ fill_gapless_filter self b CONT = TERM.

Definition jb_ok (BW : Z) (self : gaba_dp_context_s) (j : gaba_joint_block_s) : Prop :=
  stat_class (jb_stat j)
  /\ (jb_stat j = TERM -> term_cause BW self (last_blk (jb_blks j))).

(** what a tail says about the fill that wrote it *)
Definition tail_ok (BW : Z) (self : gaba_dp_context_s) (T : gaba_joint_tail_s) : Prop :=
  exists s,
    stat_class s
    /\ t_stat T =
       Z.lor s
         (Z.lor (if blk_aridx (_last_block T) =? 0 then GABA_STATUS_UPDATE_A else 0)
                (if blk_bridx (_last_block T) =? 0 then GABA_STATUS_UPDATE_B else 0))
    /\ (s = TERM -> term_cause BW self (_last_block T)).

(** the phantom block of a fill that starts at both section ends, [psum]
    not negative: a copy of the previous last block with both [ridx] zero *)
Definition end_phantom (w : world) (prev : gaba_joint_tail_s) : gaba_block_s :=
  let pblk := _last_block prev in
  mk_block [] (blk_dh pblk) (blk_dv pblk) (blk_delta pblk) (blk_max pblk)
    (blk_dir pblk) (blk_offset pblk) 0 0 None (blk_ch pblk) (junk w).

(** the phantom block [fill_init_fetch] writes in that situation: the
    vectors of the previous last block, both [ridx] zero, and the char
    vector read back from the work buffer *)
Definition end_init_phantom (BW : Z) (w : world) (self' : gaba_dp_context_s)
    (prev : gaba_joint_tail_s) : gaba_block_s :=
  let pblk := _last_block prev in
  mk_block [] (blk_dh pblk) (blk_dv pblk) (blk_delta pblk) (blk_max pblk)
    (blk_dir pblk) (blk_offset pblk) 0 0 None (char_vector BW self' (0, 0)) (junk w).

(** a lane of [_shuf_v16i8(match_mask, a & b)] *)
Definition sel (h : Z) : Z := if h =? 0 then 0 else -1.

(* ================================================================== *)
(** * Theorems *)

(** ** Fixed-width casts *)


Lemma s32_id (x : Z) : -2^31 <= x < 2^31 -> s32 x = x.
Proof. intros H. unfold s32. rewrite Z.mod_small; lia. Qed.

Lemma s64_id (x : Z) : -2^63 <= x < 2^63 -> s64 x = x.
Proof. intros H. unfold s64. rewrite Z.mod_small; lia. Qed.

Lemma u32_id (x : Z) : 0 <= x < 2^32 -> u32 x = x.
Proof. intros H. unfold u32. rewrite Z.mod_small; lia. Qed.

Lemma u64_id (x : Z) : 0 <= x < 2^64 -> u64 x = x.
Proof. intros H. unfold u64. rewrite Z.mod_small; lia. Qed.

Lemma MAX2_spec (x y : Z) : MAX2 x y = Z.max x y.
Proof. unfold MAX2. destruct (Z.ltb_spec y x); lia. Qed.

Lemma MIN2_spec (x y : Z) : MIN2 x y = Z.min x y.
Proof. unfold MIN2. destruct (Z.ltb_spec x y); lia. Qed.

(** ** Initialisation *)


(** [gaba_init] returns null in exactly three situations *)
Lemma gaba_init_null_iff (MODEL : gap_model) (BW : Z) (host : host_allocator)
    (params : option gaba_params_s) :
  gaba_init MODEL BW host params = None <->
  match params with
  | None => True
  | Some p =>
      gaba_init_check_score MODEL (gaba_init_restore_default_params p) = true
      \/ (p_reserved p = None /\ host sizeof_context = None)
  end.
Proof.
  unfold gaba_init. destruct params as [p|]; [|tauto].
  destruct (gaba_init_check_score MODEL (gaba_init_restore_default_params p)) eqn:Hc.
  - tauto.
  - simpl. unfold gaba_aligned_malloc.
    destruct (p_reserved p) eqn:Hr.
    + split; [discriminate|]. intros [H|[H _]]; discriminate.
    + destruct (host sizeof_context) eqn:Hh.
      * split; [discriminate|]. intros [H|[_ H]]; discriminate.
      * split; auto.
Qed.


Lemma restore_reserved (p : gaba_params_s) :
  p_reserved (gaba_init_restore_default_params p) = p_reserved p.
Proof. reflexivity. Qed.




(** C10, as stated, fails in its second half.  With the four scores zero
    and [xdrop = 100] the threshold that reaches the constraint check is
    still [100]: [50] is substituted only for a zero [xdrop], whatever the
    scores are.  And the call does fail, with the defaults substituted,
    when the host allocator refuses the context. *)
Lemma C10_defaults_counterexample :
  p_xdrop (gaba_init_restore_default_params (mk_params 0 0 0 0 100 0 0 0 None)) = 100
  /\ gaba_init LINEAR 32 (fun _ => None) (Some (mk_params 0 0 0 0 0 0 0 0 None)) = None.
Proof. split; reflexivity. Qed.

(** C10, amended: [gaba_init] returns null for a null [params].  When the
    four scores of [params] are zero, the scores that reach the
    constraint check are [m = x = gi = ge = 1]; [xdrop] is [50] and
    [filter_thresh] is [0] where the field passed is zero and is the
    field passed otherwise; the check accepts these values in both gap
    models, and the call returns null only if no context is reserved and
    the allocation fails. *)
Theorem C10_gaba_init_defaults (MODEL : gap_model) (BW : Z) (host : host_allocator)
    (p : gaba_params_s) :
  p_m p = 0 -> p_x p = 0 -> p_gi p = 0 -> p_ge p = 0 ->
  let q := gaba_init_restore_default_params p in
  gaba_init MODEL BW host None = None
  /\ (p_m q = 1 /\ p_x q = 1 /\ p_gi q = 1 /\ p_ge q = 1)
  /\ p_xdrop q = (if u64 (p_xdrop p) =? 0 then 50 else p_xdrop p)
  /\ p_filter_thresh q = (if u64 (p_filter_thresh p) =? 0 then 0 else p_filter_thresh p)
  /\ gaba_init_check_score MODEL q = false
  /\ (gaba_init MODEL BW host (Some p) = None <->
      p_reserved p = None /\ host sizeof_context = None).
Proof.
  intros Hm Hx Hgi Hge q.
  assert (Hs : p_m q = 1 /\ p_x q = 1 /\ p_gi q = 1 /\ p_ge q = 1).
  { subst q. unfold gaba_init_restore_default_params.
    rewrite Hm, Hx, Hgi, Hge. simpl. auto. }
  assert (Hc : gaba_init_check_score MODEL q = false).
  { destruct Hs as (H1 & H2 & H3 & H4). unfold gaba_init_check_score.
    rewrite H1, H3, H4. destruct MODEL; reflexivity. }
  split; [reflexivity|]. split; [exact Hs|].
  split; [reflexivity|]. split; [reflexivity|]. split; [exact Hc|].
  rewrite gaba_init_null_iff. fold q. rewrite Hc.
  split; [intros [H|H]; [discriminate|exact H] | intros H; right; exact H].
Qed.

Lemma C10_gaba_init_defaults_witness :
  gaba_init AFFINE 32 (fun _ => Some 0x1000000) None = None
  /\ p_xdrop (gaba_init_restore_default_params (mk_params 0 0 0 0 0 0 0 0 None)) = 50
  /\ gaba_init_check_score AFFINE
       (gaba_init_restore_default_params (mk_params 0 0 0 0 0 0 0 0 None)) = false.
Proof.
  pose proof (C10_gaba_init_defaults AFFINE 32 (fun _ => Some 0x1000000)
                (mk_params 0 0 0 0 0 0 0 0 None)
                eq_refl eq_refl eq_refl eq_refl) as H.
  cbv zeta in H. destruct H as (H0 & _ & Hx & _ & Hc & _).
  split; [exact H0|]. split; [exact Hx | exact Hc].
Defined.

(** ** Arena *)

(** the region [gaba_dp_add_stack] links does not depend on the size asked for *)
Lemma gaba_dp_add_stack_size_unused (w : world) (self : gaba_dp_context_s) (n n' : Z) :
  gaba_dp_add_stack w self n = gaba_dp_add_stack w self n'.
Proof. reflexivity. Qed.

(** a fresh region is twice the current one, whatever was asked for *)
Lemma gaba_dp_add_stack_fresh (w : world) (self self' : gaba_dp_context_s) (n : Z) :
  mem_next (curr_block self) = None ->
  gaba_dp_add_stack w self n = Some self' ->
  mem_size (curr_block self') = u64 (mem_size (curr_block self) * 2)
  /\ stack_top self' = curr_mem self' + sizeof_mem_block
  /\ stack_end self' = curr_mem self' + u64 (mem_size (curr_block self) * 2) - MEM_MARGIN_SIZE.
Proof.
  intros Hn. unfold gaba_dp_add_stack. rewrite Hn. unfold gaba_aligned_malloc.
  destruct (host w (u64 (mem_size (curr_block self) * 2))) as [mem|] eqn:Hh; [|discriminate].
  rewrite lookup_insert_eq. intros H. inversion H; subst; clear H.
  unfold curr_block. simpl. rewrite lookup_insert_eq. simpl. auto.
Qed.


(** ** Tails *)




(** ** Fill status *)

Lemma term_cause_dp_k (BW : Z) (s1 s2 : gaba_dp_context_s) (b : gaba_block_s) :
  dp_k s1 = dp_k s2 -> term_cause BW s1 b -> term_cause BW s2 b.
Proof.
  intros E. unfold term_cause, fill_test_xdrop, fill_gapless_filter. rewrite E. auto.
Qed.

Lemma jb_ok_dp_k (BW : Z) (s1 s2 : gaba_dp_context_s) (j : gaba_joint_block_s) :
  dp_k s1 = dp_k s2 -> jb_ok BW s1 j -> jb_ok BW s2 j.
Proof.
  intros E [H1 H2]. split; [exact H1|]. intros H. eapply term_cause_dp_k; eauto.
Qed.

(** the fetch functions leave the loaded template alone *)
Lemma dp_k_fill_load_seq_a BW w self pos len :
  dp_k (fill_load_seq_a BW w self pos len) = dp_k self.
Proof. unfold fill_load_seq_a. destruct (pos <? r_alim self); reflexivity. Qed.

Lemma dp_k_fill_load_seq_b BW w self pos len :
  dp_k (fill_load_seq_b BW w self pos len) = dp_k self.
Proof. unfold fill_load_seq_b. destruct (pos <? r_blim self); reflexivity. Qed.

Lemma dp_k_fetch_common BW w self ch apos alen bpos blen :
  dp_k (fetch_common BW w self ch apos alen bpos blen) = dp_k self.
Proof.
  unfold fetch_common. rewrite dp_k_fill_load_seq_b. cbn [dp_k set_buf].
  apply dp_k_fill_load_seq_a.
Qed.


Lemma dp_k_fill_cap_block MODEL BW w self prev :
  dp_k (fst (fst (fill_cap_block MODEL BW w self prev))) = dp_k self.
Proof.
  unfold fill_cap_block.
  destruct (fill_cap_steps MODEL BW _ _ _ _ _ _) as [i r]. cbn [fst].
  apply dp_k_fetch_common.
Qed.






(** [fill_create_phantom_block]: [UPDATE] from the init fetch, [TERM] from
    the ungapped filter *)
Lemma fill_gapless_filter_stat self b s1 s2 :
  fill_gapless_filter self b s1 = fill_gapless_filter self b s2.
Proof. reflexivity. Qed.

Lemma fill_gapless_filter_class self b s :
  fill_gapless_filter self b s = CONT \/ fill_gapless_filter self b s = TERM.
Proof. unfold fill_gapless_filter. destruct (_ <? _); auto. Qed.

Lemma dp_k_fill_init_fetch BW w self prev blk ridx :
  dp_k (fst (fill_init_fetch BW w self prev blk ridx)) = dp_k self.
Proof. unfold fill_init_fetch. cbn [fst]. apply dp_k_fetch_common. Qed.

Lemma fill_init_fetch_stat BW w self prev blk ridx :
  let j := snd (fill_init_fetch BW w self prev blk ridx) in
  jb_stat j = CONT \/ jb_stat j = UPDATE.
Proof. unfold fill_init_fetch. cbn [snd jb_stat]. destruct (_ =? _); auto. Qed.

Lemma fill_create_phantom_block_ok BW w self prev self' j :
  fill_create_phantom_block BW w self prev = (self', j) ->
  dp_k self' = dp_k self /\ jb_ok BW self' j.
Proof.
  unfold fill_create_phantom_block.
  destruct (0 <=? t_psum prev).
  - intros E; inversion E; subst. split; [reflexivity|].
    split; [left; reflexivity|]. cbn. unfold CONT, TERM. discriminate.
  - pose proof (dp_k_fill_init_fetch BW w self prev
                  (mk_block [] (blk_dh (_last_block prev)) (blk_dv (_last_block prev))
                     (blk_delta (_last_block prev)) (blk_max (_last_block prev))
                     (blk_dir (_last_block prev)) (blk_offset (_last_block prev)) 0 0 None []
                     (junk w))
                  (_sub_v2i32 (r_alen self, r_blen self) (t_apos prev, t_bpos prev))) as Hk.
    pose proof (fill_init_fetch_stat BW w self prev
                  (mk_block [] (blk_dh (_last_block prev)) (blk_dv (_last_block prev))
                     (blk_delta (_last_block prev)) (blk_max (_last_block prev))
                     (blk_dir (_last_block prev)) (blk_offset (_last_block prev)) 0 0 None []
                     (junk w))
                  (_sub_v2i32 (r_alen self, r_blen self) (t_apos prev, t_bpos prev))) as Hs.
    destruct (fill_init_fetch BW w self prev _ _) as [s1 st]. cbn [fst snd] in Hk, Hs.
    destruct (0 <=? t_psum prev + jb_p st).
    + intros E; inversion E; subst. split; [exact Hk|].
      split; cbn [jb_stat jb_blks].
      * destruct (fill_gapless_filter_class self' (last_blk (jb_blks st)) (jb_stat st)) as [H|H];
          rewrite H; [left|right; right]; reflexivity.
      * intros H. right. rewrite <- H. apply fill_gapless_filter_stat.
    + intros E; inversion E; subst. split; [exact Hk|].
      split.
      * destruct Hs as [H|H]; rewrite H; [left|right; left]; reflexivity.
      * intros H. destruct Hs as [H'|H']; rewrite H' in H; discriminate.
Qed.






Lemma tail_ok_dp_k BW s1 s2 T : dp_k s1 = dp_k s2 -> tail_ok BW s1 T -> tail_ok BW s2 T.
Proof.
  intros E (s & H1 & H2 & H3). exists s. split; [exact H1|]. split; [exact H2|].
  intros H. eapply term_cause_dp_k; eauto.
Qed.













(** C8, the code on an alignment that starts inside a section.  The root
    fill enters section A at position [1]; the best alignment deletes the
    symbol there and matches the eight symbols behind it.  The path holds
    [17] bits, nine [0] bits and eight [1] bits, and the one section
    record covers [alen = 8] symbols of A from position [2]: the deleted
    symbol is in the path and in no section. *)
Theorem C8_path_exceeds_sections :
  exists self aln,
    del_trace LINEAR = Traced self aln
    /\ aln_path_len aln = 17
    /\ count_path_bits false (aln_path aln) (aln_path_len aln) = 9
    /\ count_path_bits true (aln_path aln) (aln_path_len aln) = 8
    /\ aln_sec aln = [mk_psec 0 4 2 0 8 8 0]
    /\ sum_alen (aln_sec aln) = 8
    /\ sum_blen (aln_sec aln) = 8
    /\ count_path_bits false (aln_path aln) (aln_path_len aln) <> sum_alen (aln_sec aln).
Proof.
  eexists. eexists.
  split; [vm_compute; reflexivity|].
  split; [reflexivity|]. split; [vm_compute; reflexivity|].
  split; [vm_compute; reflexivity|]. split; [vm_compute; reflexivity|].
  split; [reflexivity|]. split; [reflexivity|].
  vm_compute. discriminate.
Qed.

(** the affine model takes the same walk *)
Lemma del_trace_affine :
  exists self aln,
    del_trace AFFINE = Traced self aln
    /\ count_path_bits false (aln_path aln) (aln_path_len aln) = 9
    /\ sum_alen (aln_sec aln) = 8.
Proof.
  eexists. eexists.
  split; [vm_compute; reflexivity|].
  split; vm_compute; reflexivity.
Qed.

(** ** Fills on empty sections *)

(** C9, as stated, fails.  The second fill of [empty_chain] ends on the
    two section ends with status [0x1ff] after [20] anti-diagonals, its
    last block lying more than the X-drop threshold below the maximum.
    The fill on two empty sections that follows returns [0x2ff]: [TERM]
    is set.  Its tail also differs from the previous one in [p] ([0]
    against [20]), in the section lengths ([0] against [10]) and in the
    section ids, not in [ssum] alone. *)
Lemma C9_empty_fill_counterexample :
  exists self T1 T2 T3,
    empty_chain = Some (self, [T1; T2; T3])
    /\ t_alen T3 = 0 /\ t_blen T3 = 0
    /\ t_stat T2 = 0x1ff
    /\ t_stat T3 = 0x2ff /\ Z.land (t_stat T3) TERM <> 0
    /\ t_psum T3 = t_psum T2 /\ t_ssum T3 = t_ssum T2 + 1
    /\ t_p T2 = 20 /\ t_p T3 = 0
    /\ t_alen T2 = 10 /\ t_aid T2 = 2 /\ t_aid T3 = 8.
Proof.
  do 4 eexists.
  split; [vm_compute; reflexivity|].
  repeat (split; [reflexivity|]).
  split; [vm_compute; discriminate|].
  repeat (split; [reflexivity|]). reflexivity.
Qed.

Lemma calc_max_bulk_blocks_mem_nonneg MODEL BW self :
  0 <= calc_max_bulk_blocks_mem MODEL BW self.
Proof.
  unfold calc_max_bulk_blocks_mem.
  destruct (Z.ltb_spec 3 (Z.quot (u64 (stack_end self - stack_top self)) (sizeof_block MODEL BW)));
    lia.
Qed.

(** with no block expected the memory-bounded loop is not entered *)
Lemma fill_section_mem_loop_skip MODEL BW w fuel self tail mb :
  0 <= mb ->
  fill_section_mem_loop MODEL BW w fuel self tail mb 0 = inr (self, tail).
Proof.
  intros H. destruct fuel; cbn [fill_section_mem_loop];
    destruct (Z.ltb_spec mb 0); try lia; reflexivity.
Qed.

Lemma g_ptrs_fill_load_context MODEL BW prev :
  g_aptr (_fill_load_context MODEL BW prev) = _rd_bufa BW 0 BW
  /\ g_bptr (_fill_load_context MODEL BW prev) = _rd_bufb BW 0 BW.
Proof. destruct MODEL; split; reflexivity. Qed.

(** at the end of both sections the cap loop stops before its first step *)
Lemma fill_cap_steps_at_end MODEL BW self alim blim n r :
  g_aptr r = alim -> g_bptr r = blim ->
  fst (fill_cap_steps MODEL BW self alim blim (S n) 0 r) = 0.
Proof.
  intros Ha Hb. cbn [fill_cap_steps].
  destruct (_dir_is_right (g_dir (set_dir r (_dir_fetch (g_dir r))))).
  - unfold _fill_cap_test_seq_bound, _fill_right_update_ptr, set_ptrs, set_dir.
    cbn [g_aptr g_bptr]. rewrite Ha, Hb.
    replace (alim - 1 - alim) with (-1) by lia. rewrite Z.sub_diag.
    cbn. reflexivity.
  - unfold _fill_cap_test_seq_bound, _fill_down_update_ptr, set_ptrs, set_dir.
    cbn [g_aptr g_bptr]. rewrite Ha, Hb.
    replace (blim - (blim + 1)) with (-1) by lia. rewrite Z.sub_diag.
    cbn. reflexivity.
Qed.

Lemma fill_cap_block_at_end MODEL BW w self prev :
  blk_aridx prev = 0 -> blk_bridx prev = 0 ->
  snd (fill_cap_block MODEL BW w self prev) = 0.
Proof.
  intros Ha Hb. unfold fill_cap_block. rewrite Ha, Hb.
  destruct (g_ptrs_fill_load_context MODEL BW prev) as [Pa Pb].
  pose proof (fill_cap_steps_at_end MODEL BW (fill_cap_fetch BW w self prev)
                (_rd_bufa BW 0 BW) (_rd_bufb BW 0 BW) 31
                (_fill_load_context MODEL BW prev) Pa Pb) as H.
  change (Z.to_nat BLK) with 32%nat.
  destruct (fill_cap_steps MODEL BW _ _ _ 32 0 _) as [i r]. cbn [fst] in H. subst i.
  reflexivity.
Qed.

Lemma lor_neg_r (x y : Z) : y < 0 -> Z.lor x y < 0.
Proof. intros H. apply Z.lor_neg. right. exact H. Qed.

Lemma fill_seq_bounded_empty MODEL BW w fuel self prev :
  0 < BW ->
  r_alen self = 0 -> r_blen self = 0 -> t_apos prev = 0 -> t_bpos prev = 0 ->
  0 <= t_psum prev ->
  exists self',
    dp_k self' = dp_k self /\ r_alen self' = 0 /\ r_blen self' = 0
    /\ r_aid self' = r_aid self /\ r_bid self' = r_bid self
    /\ fill_seq_bounded MODEL BW w fuel self prev =
       Some (fill_create_tail MODEL BW self' prev (stack_top self) [end_phantom w prev] 0
               (if fill_test_xdrop BW self (_last_block prev) <? 0 then TERM else UPDATE)).
Proof.
  intros HBW Ha Hb Hpa Hpb Hps.
  unfold fill_seq_bounded, fill_create_phantom_block.
  destruct (Z.leb_spec 0 (t_psum prev)); [|lia].
  rewrite Ha, Hb, Hpa, Hpb.
  change (_lo32 (_sub_v2i32 (0, 0) (0, 0))) with 0.
  change (_hi32 (_sub_v2i32 (0, 0) (0, 0))) with 0.
  fold (end_phantom w prev).
  cbn [jb_stat jb_p jb_blks]. change (negb (CONT =? CONT)) with false. cbv iota.
  assert (Hbulk : fill_seq_bounded_bulk MODEL BW w fuel self
                    (mk_jb [end_phantom w prev] 0 CONT) 0
                  = Some (self, mk_jb [end_phantom w prev] 0 CONT, 0, false)).
  { destruct fuel; reflexivity. }
  rewrite Hbulk. cbn [jb_blks].
  assert (Hseq : fill_bulk_seq_bounded_loop MODEL BW w fuel self [end_phantom w prev] 0
                 = Some (self, [end_phantom w prev], 0)).
  { assert (Hneg : Z.lor (fill_test_xdrop BW self (last_blk [end_phantom w prev]))
                     (fill_bulk_test_seq_bound BW (last_blk [end_phantom w prev])) < 0).
    { apply lor_neg_r. unfold fill_bulk_test_seq_bound. cbn.
      apply lor_neg_r. lia. }
    destruct fuel; cbn [fill_bulk_seq_bounded_loop];
      destruct (Z.ltb_spec (Z.lor (fill_test_xdrop BW self (last_blk [end_phantom w prev]))
                     (fill_bulk_test_seq_bound BW (last_blk [end_phantom w prev]))) 0);
      try lia; reflexivity. }
  unfold fill_bulk_seq_bounded. rewrite Hseq. cbn [jb_stat jb_p jb_blks].
  change (fill_test_xdrop BW self (last_blk [end_phantom w prev]))
    with (fill_test_xdrop BW self (_last_block prev)).
  destruct (Z.ltb_spec (fill_test_xdrop BW self (_last_block prev)) 0) as [Hx|Hx].
  - change (negb (TERM =? CONT)) with true. cbv iota.
    exists self. repeat (split; [first [reflexivity | assumption]|]). reflexivity.
  - change (negb (CONT =? CONT)) with false. cbv iota.
    unfold fill_cap_seq_bounded.
    assert (Hcap : exists s,
               dp_k s = dp_k self /\ r_alen s = 0 /\ r_blen s = 0
               /\ r_aid s = r_aid self /\ r_bid s = r_bid self
               /\ fill_cap_seq_bounded_loop MODEL BW w fuel self [end_phantom w prev] 0
                  = Some (s, mk_jb [end_phantom w prev] 0 UPDATE)).
    { pose proof (fill_cap_block_at_end MODEL BW w self (end_phantom w prev)
                    eq_refl eq_refl) as Hi.
      pose proof (dp_k_fill_cap_block MODEL BW w self (end_phantom w prev)) as Hk.
      assert (Hr : let s := fst (fst (fill_cap_block MODEL BW w self (end_phantom w prev))) in
                   r_alen s = r_alen self /\ r_blen s = r_blen self
                   /\ r_aid s = r_aid self /\ r_bid s = r_bid self).
      { unfold fill_cap_block.
        destruct (fill_cap_steps MODEL BW _ _ _ _ _ _) as [i r]. cbn [fst].
        unfold fill_cap_fetch, fetch_common, fill_load_seq_a, fill_load_seq_b.
        repeat match goal with |- context [if ?c then _ else _] => destruct c end;
          cbn; auto. }
      cbv zeta in Hr.
      exists (fst (fst (fill_cap_block MODEL BW w self (end_phantom w prev)))).
      destruct Hr as (R1 & R2 & R3 & R4).
      split; [exact Hk|]. split; [congruence|]. split; [congruence|].
      split; [exact R3|]. split; [exact R4|].
      destruct fuel; cbn [fill_cap_seq_bounded_loop];
        change (last_blk [end_phantom w prev]) with (end_phantom w prev);
        (destruct (Z.ltb_spec (fill_test_xdrop BW self (end_phantom w prev)) 0) as [Hy|Hy];
         [ change (fill_test_xdrop BW self (end_phantom w prev))
             with (fill_test_xdrop BW self (_last_block prev)) in Hy; lia |]);
        destruct (fill_cap_block MODEL BW w self (end_phantom w prev)) as [[s1 b1] i1];
        cbn [fst snd] in Hi |- *; subst i1; reflexivity. }
    destruct Hcap as (s & K & R1 & R2 & R3 & R4 & E). rewrite E.
    cbn [jb_stat jb_p jb_blks].
    exists s. repeat (split; [assumption|]). reflexivity.
Qed.

(** the lengths [fill_init_fetch] takes from two sections that have
    nothing left *)
Lemma init_fetch_len_at_end (prem : Z) :
  0 < prem < 2^31 - 1 ->
  let rem := _sar_v2i32 (_seta_v2i32 prem (prem + 1)) 1 in
  let nrem := _max_v2i32 (_sub_v2i32 rem (0, 0)) _zero_v2i32 in
  let rrem := _sub_v2i32 (_swap_v2i32 nrem) (_seta_v2i32 1 0) in
  _sub_v2i32 rem (_max_v2i32 nrem rrem) = (0, 0).
Proof.
  intros H. cbv zeta.
  unfold _sar_v2i32, _seta_v2i32, _max_v2i32, _sub_v2i32, _swap_v2i32, lift2, _zero_v2i32.
  cbn [fst snd].
  rewrite (s32_id (prem + 1)) by lia. rewrite (s32_id prem) by lia.
  rewrite !Z.shiftr_div_pow2 by lia. change (2 ^ 1) with 2.
  rewrite !Z.sub_0_r. change (s32 0) with 0. change (s32 1) with 1.
  assert (B1 : 0 <= (prem + 1) / 2 < 2^31) by (split; [apply Z.div_pos|apply Z.div_lt_upper_bound]; lia).
  assert (B2 : 0 <= prem / 2 < 2^31) by (split; [apply Z.div_pos|apply Z.div_lt_upper_bound]; lia).
  assert (B3 : prem / 2 <= (prem + 1) / 2) by (apply Z.div_le_mono; lia).
  assert (B4 : (prem + 1) / 2 - 1 <= prem / 2).
  { pose proof (Z.div_mod prem 2 ltac:(lia)). pose proof (Z.div_mod (prem + 1) 2 ltac:(lia)).
    pose proof (Z.mod_pos_bound prem 2 ltac:(lia)).
    pose proof (Z.mod_pos_bound (prem + 1) 2 ltac:(lia)). lia. }
  rewrite !(s32_id ((prem + 1) / 2)) by lia. rewrite !(s32_id (prem / 2)) by lia.
  rewrite (Z.max_l ((prem + 1) / 2) 0) by lia. rewrite (Z.max_l (prem / 2) 0) by lia.
  rewrite (s32_id ((prem + 1) / 2 - 1)) by lia.
  rewrite (s32_id (prem / 2)) by lia.
  rewrite (Z.max_l ((prem + 1) / 2) (prem / 2)) by lia.
  rewrite (Z.max_l (prem / 2) ((prem + 1) / 2 - 1)) by lia.
  rewrite !Z.sub_diag. reflexivity.
Qed.

Lemma fill_seq_bounded_empty_neg MODEL BW w fuel self prev :
  r_alen self = 0 -> r_blen self = 0 -> t_apos prev = 0 -> t_bpos prev = 0 ->
  - 2^31 + 1 < t_psum prev < 0 ->
  exists self',
    dp_k self' = dp_k self /\ r_alen self' = 0 /\ r_blen self' = 0
    /\ r_aid self' = r_aid self /\ r_bid self' = r_bid self
    /\ fill_seq_bounded MODEL BW w fuel self prev =
       Some (fill_create_tail MODEL BW self' prev (stack_top self)
               [end_init_phantom BW w self' prev] 0 UPDATE).
Proof.
  intros Ha Hb Hpa Hpb Hps.
  unfold fill_seq_bounded, fill_create_phantom_block.
  destruct (Z.leb_spec 0 (t_psum prev)); [lia|].
  rewrite Ha, Hb, Hpa, Hpb.
  change (_sub_v2i32 (0, 0) (0, 0)) with (0, 0).
  unfold fill_init_fetch.
  pose proof (init_fetch_len_at_end (- t_psum prev) ltac:(lia)) as Hlen.
  cbv zeta in Hlen. rewrite Hlen.
  change (_lo32 (0, 0)) with 0. change (_hi32 (0, 0)) with 0.
  change (_sub_v2i32 (0, 0) (0, 0)) with (0, 0).
  change (_lo32 (0, 0)) with 0. change (_hi32 (0, 0)) with 0.
  cbn [jb_p jb_stat jb_blks blk_mask blk_dh blk_dv blk_delta blk_max blk_dir blk_offset
       blk_md blk_pad].
  change (_mask_v2i32 (_eq_v2i32 (0, 0) _zero_v2i32) =? V2I32_MASK_00) with false.
  cbv iota. rewrite Z.add_0_r.
  destruct (Z.leb_spec 0 (t_psum prev)); [lia|].
  cbn [jb_p jb_stat jb_blks]. change (negb (UPDATE =? CONT)) with true. cbv iota.
  set (s := fetch_common BW w self (blk_ch (_last_block prev)) (r_atail self - 0) 0
              (r_btail self - 0) 0).
  exists s.
  split; [apply dp_k_fetch_common|].
  assert (Hr : r_alen s = r_alen self /\ r_blen s = r_blen self
               /\ r_aid s = r_aid self /\ r_bid s = r_bid self).
  { subst s. unfold fetch_common, fill_load_seq_a, fill_load_seq_b.
    repeat match goal with |- context [if ?c then _ else _] => destruct c end;
      cbn; auto. }
  destruct Hr as (R1 & R2 & R3 & R4).
  split; [congruence|]. split; [congruence|]. split; [exact R3|]. split; [exact R4|].
  reflexivity.
Qed.

Lemma fill_load_section_fields self a b plim :
  let s := fill_load_section self a b plim in
  dp_k s = dp_k self /\ stack_top s = stack_top self
  /\ r_alen s = s32 (sec_len a) /\ r_blen s = s32 (sec_len b)
  /\ r_aid s = u32 (sec_id a) /\ r_bid s = u32 (sec_id b).
Proof. cbn. auto 10. Qed.

(** C9, amended: a fill on two empty sections, called on a tail that
    stands at the end of both of its sections, returns a handle whatever
    the fuel.  Its [psum] is the previous [psum], its [p] is zero, [ssum]
    is one more, it links back to the previous tail, its section
    positions and lengths are zero and its ids are those of the empty
    sections; its last block carries the small maximum and the offset of
    the previous last block.  Its status is [UPDATE] with both section
    flags, [0x1ff], unless [psum] is not negative and the X-drop test is
    negative on the previous last block: then it is [TERM] with both
    section flags, [0x2ff]. *)
Theorem C9_empty_fill (MODEL : gap_model) (BW : Z) (w : world) (fuel : nat)
    (self : gaba_dp_context_s) (prev : gaba_joint_tail_s) (a b : gaba_section_s) :
  0 < BW ->
  sec_len a = 0 -> sec_len b = 0 ->
  t_apos prev = 0 -> t_bpos prev = 0 ->
  - 2^31 + 1 < t_psum prev < 2^63 ->
  exists self' T,
    gaba_dp_fill MODEL BW w fuel self prev a b = Filled self' T
    /\ t_psum T = t_psum prev /\ t_p T = 0 /\ t_ssum T = u32 (t_ssum prev + 1)
    /\ t_tail T = Some prev
    /\ t_apos T = 0 /\ t_bpos T = 0 /\ t_alen T = 0 /\ t_blen T = 0
    /\ t_aid T = u32 (sec_id a) /\ t_bid T = u32 (sec_id b)
    /\ blk_max (_last_block T) = blk_max (_last_block prev)
    /\ blk_offset (_last_block T) = blk_offset (_last_block prev)
    /\ t_stat T =
       (if (0 <=? t_psum prev) && (fill_test_xdrop BW self (_last_block prev) <? 0)
        then Z.lor TERM (Z.lor GABA_STATUS_UPDATE_A GABA_STATUS_UPDATE_B)
        else Z.lor UPDATE (Z.lor GABA_STATUS_UPDATE_A GABA_STATUS_UPDATE_B)).
Proof.
  intros HBW Hla Hlb Hpa Hpb Hps.
  unfold gaba_dp_fill, fill_section_seq_bounded.
  destruct (fill_load_section_fields self a b INT64_MAX) as (K0 & S0 & A0 & B0 & I0 & J0).
  cbv zeta in K0, S0, A0, B0, I0, J0.
  rewrite Hla in A0. rewrite Hlb in B0. change (s32 0) with 0 in A0, B0.
  set (s0 := fill_load_section self a b INT64_MAX) in *.
  assert (Hexp : calc_max_expected_blocks_tail s0 prev = 0).
  { unfold calc_max_expected_blocks_tail. rewrite A0, B0, Hpa, Hpb. reflexivity. }
  rewrite Hexp.
  rewrite fill_section_mem_loop_skip by apply calc_max_bulk_blocks_mem_nonneg.
  assert (Hx : fill_test_xdrop BW s0 (_last_block prev)
               = fill_test_xdrop BW self (_last_block prev)).
  { unfold fill_test_xdrop. rewrite K0. reflexivity. }
  destruct (Z.leb_spec 0 (t_psum prev)) as [Hp|Hp].
  - destruct (fill_seq_bounded_empty MODEL BW w fuel s0 prev HBW A0 B0 Hpa Hpb Hp)
      as (s1 & K1 & A1 & B1 & I1 & J1 & E).
    rewrite E. rewrite Hx. cbn [andb].
    eexists. eexists. split; [unfold fill_create_tail; reflexivity|].
    cbn [t_psum t_p t_ssum t_tail t_apos t_bpos t_alen t_blen t_aid t_bid t_stat t_blks].
    unfold _last_block at 1 2. cbn [t_blks hd].
    unfold set_stack_top, set_stack. cbn [r_alen r_blen r_aid r_bid].
    rewrite A1, B1, I1, J1, I0, J0.
    change (last_blk [end_phantom w prev]) with (end_phantom w prev).
    unfold set_md, end_phantom. cbn [blk_aridx blk_bridx blk_max blk_offset].
    rewrite Z.add_0_l. rewrite s64_id by lia.
    destruct (Z.ltb_spec (t_psum prev) 0); [lia|].
    split; [reflexivity|]. split; [reflexivity|]. split; [reflexivity|].
    split; [reflexivity|].
    repeat (split; [reflexivity|]).
    destruct (fill_test_xdrop BW self (_last_block prev) <? 0); reflexivity.
  - destruct (fill_seq_bounded_empty_neg MODEL BW w fuel s0 prev A0 B0 Hpa Hpb ltac:(lia))
      as (s1 & K1 & A1 & B1 & I1 & J1 & E).
    rewrite E. cbn [andb].
    eexists. eexists. split; [unfold fill_create_tail; reflexivity|].
    cbn [t_psum t_p t_ssum t_tail t_apos t_bpos t_alen t_blen t_aid t_bid t_stat t_blks].
    unfold _last_block at 1 2. cbn [t_blks hd].
    unfold set_stack_top, set_stack. cbn [r_alen r_blen r_aid r_bid].
    rewrite A1, B1, I1, J1, I0, J0.
    change (last_blk [end_init_phantom BW w s1 prev]) with (end_init_phantom BW w s1 prev).
    unfold set_md, end_init_phantom. cbn [blk_aridx blk_bridx blk_max blk_offset].
    rewrite Z.add_0_l. rewrite s64_id by lia.
    destruct (Z.ltb_spec (t_psum prev) 0); [|lia].
    rewrite MAX2_spec. rewrite Z.max_r by lia.
    split; [reflexivity|]. split; [reflexivity|]. split; [reflexivity|].
    split; [reflexivity|].
    repeat (split; [reflexivity|]). reflexivity.
Qed.

Lemma C9_empty_fill_witness :
  (0 < 32 /\ t_apos (_ptail arena_self) = 0 /\ t_bpos (_ptail arena_self) = 0
   /\ - 2^31 + 1 < t_psum (_ptail arena_self) < 2^63)
  /\ exists self' T,
       gaba_dp_fill LINEAR 32 arena_world 0 arena_self (_ptail arena_self)
         (gaba_build_section 8 unittest_ca 0) (gaba_build_section 10 unittest_ca 0)
       = Filled self' T
       /\ t_psum T = t_psum (_ptail arena_self) /\ t_p T = 0
       /\ t_stat T = 0x1ff.
Proof.
  assert (E : t_psum (_ptail arena_self) = -31) by (vm_compute; reflexivity).
  assert (Ea : t_apos (_ptail arena_self) = 0) by (vm_compute; reflexivity).
  assert (Eb : t_bpos (_ptail arena_self) = 0) by (vm_compute; reflexivity).
  split; [rewrite E; repeat split; try lia; assumption|].
  destruct (C9_empty_fill LINEAR 32 arena_world 0 arena_self (_ptail arena_self)
              (gaba_build_section 8 unittest_ca 0) (gaba_build_section 10 unittest_ca 0)
              ltac:(lia) eq_refl eq_refl Ea Eb ltac:(rewrite E; lia))
    as (self' & T & HF & Hps & Hp & _ & _ & _ & _ & _ & _ & _ & _ & _ & _ & Hst).
  exists self', T. split; [exact HF|]. split; [exact Hps|]. split; [exact Hp|].
  rewrite Hst. rewrite E. reflexivity.
Defined.

(** ** The ungapped filter *)

(** population count of a lane mask *)
Lemma popcnt_fuel_0 (n : nat) : popcnt_fuel n 0 = 0.
Proof.
  induction n as [|n IH]; [reflexivity|]. cbn [popcnt_fuel].
  change (Z.div2 0) with 0. rewrite IH. reflexivity.
Qed.

Lemma _mask_n_range (l : vec) : 0 <= _mask_n l < 2 ^ Z.of_nat (length l).
Proof.
  induction l as [|x l IH]; [cbn; lia|].
  cbn [_mask_n length]. rewrite Nat2Z.inj_succ, Z.pow_succ_r by lia.
  destruct (x <? 0); cbn [Z.b2z]; lia.
Qed.

Lemma popcnt_fuel_mask (l : vec) :
  forall n, (length l <= n)%nat ->
  popcnt_fuel n (_mask_n l) = fold_right (fun x c => Z.b2z (x <? 0) + c) 0 l.
Proof.
  induction l as [|x l IH]; intros n Hn.
  - cbn. apply popcnt_fuel_0.
  - destruct n as [|n]; [cbn in Hn; lia|].
    cbn [popcnt_fuel _mask_n fold_right].
    assert (Hodd : Z.odd (Z.b2z (x <? 0) + 2 * _mask_n l) = (x <? 0)).
    { rewrite Z.odd_add_mul_2. destruct (x <? 0); reflexivity. }
    assert (Hdiv : Z.div2 (Z.b2z (x <? 0) + 2 * _mask_n l) = _mask_n l).
    { rewrite Z.div2_div. destruct (x <? 0); cbn [Z.b2z].
      - pose proof (Z.div_mod (1 + 2 * _mask_n l) 2 ltac:(lia)).
        pose proof (Z.mod_pos_bound (1 + 2 * _mask_n l) 2 ltac:(lia)). lia.
      - rewrite Z.add_0_l, Z.mul_comm, Z.div_mul by lia. reflexivity. }
    rewrite Hodd, Hdiv. rewrite IH by (cbn in Hn; lia). reflexivity.
Qed.

Lemma popcnt_mask (l : vec) :
  (length l <= 64)%nat ->
  popcnt (_mask_n l) = fold_right (fun x c => Z.b2z (x <? 0) + c) 0 l.
Proof.
  intros H. unfold popcnt. rewrite u64_id.
  - apply popcnt_fuel_mask. exact H.
  - pose proof (_mask_n_range l) as R. split; [lia|].
    eapply Z.lt_le_trans; [apply R|]. apply Z.pow_le_mono_r; lia.
Qed.

(** the two nibbles of a lane *)
Lemma land_15_mod (x : Z) : Z.land 15 x = x mod 16.
Proof. rewrite Z.land_comm. change 15 with (Z.ones 4). apply Z.land_ones. lia. Qed.

Lemma land_15_lane_a (x : Z) : Z.land 15 x = Z.land (u8 x) 15.
Proof.
  rewrite (Z.land_comm (u8 x)). rewrite !land_15_mod. unfold u8.
  symmetry. apply Z.mod_mod_divide. exists 16. reflexivity.
Qed.

Lemma land_15_lane_b (b0 b1 b2 b3 : Z) (j : Z) (bj : Z) :
  (j = 0 /\ bj = b0) \/ (j = 1 /\ bj = b1) \/ (j = 2 /\ bj = b2) \/ (j = 3 /\ bj = b3) ->
  Z.land 15 (byte_of_word (Z.shiftr (word_of_bytes b0 b1 b2 b3) 4) j) = Z.shiftr (u8 bj) 4.
Proof.
  intros Hj. rewrite land_15_mod. unfold byte_of_word, word_of_bytes, s8.
  rewrite !Z.shiftr_div_pow2 by lia.
  pose proof (Z.mod_pos_bound b0 256 ltac:(lia)) as B0.
  pose proof (Z.mod_pos_bound b1 256 ltac:(lia)) as B1.
  pose proof (Z.mod_pos_bound b2 256 ltac:(lia)) as B2.
  pose proof (Z.mod_pos_bound b3 256 ltac:(lia)) as B3.
  unfold u8 in *.
  set (c0 := b0 mod 256) in *. set (c1 := b1 mod 256) in *.
  set (c2 := b2 mod 256) in *. set (c3 := b3 mod 256) in *.
  destruct Hj as [[-> ->]|[[-> ->]|[[-> ->]|[-> ->]]]];
    fold c0 c1 c2 c3; cbn [Z.mul Z.pow Z.pow_pos Pos.iter Pos.mul];
    Z.to_euclidean_division_equations; lia.
Qed.

Lemma land_15_lane_b0 (b0 b1 b2 b3 : Z) :
  Z.land 15 (byte_of_word (Z.shiftr (word_of_bytes b0 b1 b2 b3) 4) 0) = Z.shiftr (u8 b0) 4.
Proof. apply land_15_lane_b. auto. Qed.
Lemma land_15_lane_b1 (b0 b1 b2 b3 : Z) :
  Z.land 15 (byte_of_word (Z.shiftr (word_of_bytes b0 b1 b2 b3) 4) 1) = Z.shiftr (u8 b1) 4.
Proof. apply land_15_lane_b. auto. Qed.
Lemma land_15_lane_b2 (b0 b1 b2 b3 : Z) :
  Z.land 15 (byte_of_word (Z.shiftr (word_of_bytes b0 b1 b2 b3) 4) 2) = Z.shiftr (u8 b2) 4.
Proof. apply land_15_lane_b. auto 6. Qed.
Lemma land_15_lane_b3 (b0 b1 b2 b3 : Z) :
  Z.land 15 (byte_of_word (Z.shiftr (word_of_bytes b0 b1 b2 b3) 4) 3) = Z.shiftr (u8 b3) 4.
Proof. apply land_15_lane_b. auto 6. Qed.

Lemma shuf_lane (x b : Z) :
  (if Z.land (Z.land (u8 x) 15) b <? 0 then 0
   else nth (Z.to_nat (Z.land (Z.land (Z.land (u8 x) 15) b) 15))
          [0; -1; -1; -1; -1; -1; -1; -1; -1; -1; -1; -1; -1; -1; -1; -1] 0)
  = sel (Z.land (Z.land (u8 x) 15) b).
Proof.
  set (a := Z.land (u8 x) 15).
  assert (Ha : Z.land (Z.land a b) 15 = Z.land a b).
  { subst a. rewrite <- Z.land_assoc, (Z.land_comm b 15), Z.land_assoc.
    rewrite <- (Z.land_assoc (u8 x)). change (Z.land 15 15) with 15. reflexivity. }
  assert (Hr : 0 <= Z.land a b < 16).
  { rewrite <- Ha. rewrite Z.land_comm, land_15_mod. apply Z.mod_pos_bound. lia. }
  rewrite Ha. set (i := Z.land a b) in *.
  destruct (Z.ltb_spec i 0); [lia|]. unfold sel.
  assert (E : i = 0 \/ i = 1 \/ i = 2 \/ i = 3 \/ i = 4 \/ i = 5 \/ i = 6 \/ i = 7 \/ i = 8
              \/ i = 9 \/ i = 10 \/ i = 11 \/ i = 12 \/ i = 13 \/ i = 14 \/ i = 15) by lia.
  clearbody i.
  repeat (destruct E as [->|E]; [reflexivity|]). subst i. reflexivity.
Qed.

Lemma lor3_neg (h1 h2 h3 : Z) :
  (Z.lor (Z.lor (sel h1) (sel h2)) (sel h3) <? 0)
  = negb (h1 =? 0) || negb (h2 =? 0) || negb (h3 =? 0).
Proof. unfold sel. destruct (h1 =? 0), (h2 =? 0), (h3 =? 0); reflexivity. Qed.

Lemma gapless_filter_lanes (self : gaba_dp_context_s)
    (x0 x1 x2 x3 x4 x5 x6 x7 x8 x9 x10 x11 x12 x13 x14 x15
     y0 y1 y2 y3 y4 y5 y6 y7 y8 y9 y10 y11 y12 y13 y14 y15 : Z) (rest : vec) :
  let l := x0 :: x1 :: x2 :: x3 :: x4 :: x5 :: x6 :: x7 :: x8 :: x9 :: x10 :: x11
           :: x12 :: x13 :: x14 :: x15 :: y0 :: y1 :: y2 :: y3 :: y4 :: y5 :: y6 :: y7
           :: y8 :: y9 :: y10 :: y11 :: y12 :: y13 :: y14 :: y15 :: rest in
  forall blk stat, blk_ch blk ++ blk_pad blk = l ->
  fill_gapless_filter self blk stat =
  if k_tf (dp_k self) <? filter_count l then CONT else TERM.
Proof.
  intros l blk stat E. unfold fill_gapless_filter. rewrite E. subst l.
  unfold load_at, _set_n. change (Z.to_nat 16) with 16%nat. change (Z.to_nat 0) with 0%nat.
  change (s8 15) with 15. change (s8 255) with (-1).
  cbv [_bsl_n _bsr_n _swap_n _and_n _or_n _shr_n map_words map2 _shuf_n map
       rev app firstn skipn repeat tl removelast].
  rewrite !land_15_lane_b0, !land_15_lane_b1, !land_15_lane_b2, !land_15_lane_b3.
  rewrite !land_15_lane_a.
  rewrite !shuf_lane.
  rewrite popcnt_mask by (cbn; lia).
  cbn [fold_right]. rewrite !lor3_neg. rewrite !Z.land_0_r.
  reflexivity.
Qed.

(** C4, as stated, fails in both directions.  With [tf = 4], the pair
    that starts with ["ACGT"] on both sides has a run of four matches on
    its main diagonal and the root fill is vetoed by the filter (the
    X-drop test is not negative); the pair whose matches sit at every
    other position has no run of two matches on any diagonal, let alone
    four, and the root fill is not vetoed. *)
Lemma C4_filter_run_counterexample :
  (exists self T,
      fill_root_filter 4 seq_run_a seq_run_b = Filled self T
      /\ spec_has_run 32 4 (blk_ch (phantom_of T)) = true
      /\ Z.land (t_stat T) TERM = TERM
      /\ fill_gapless_filter self (phantom_of T) CONT = TERM
      /\ 0 <= fill_test_xdrop 32 self (phantom_of T))
  /\ (exists self T,
         fill_root_filter 4 seq_scatter_a seq_scatter_b = Filled self T
         /\ spec_has_run 32 2 (blk_ch (phantom_of T)) = false
         /\ spec_has_run 32 4 (blk_ch (phantom_of T)) = false
         /\ Z.land (t_stat T) TERM = 0
         /\ fill_gapless_filter self (phantom_of T) CONT = CONT).
Proof.
  split.
  - eexists. eexists. split; [vm_compute; reflexivity|].
    split; [vm_compute; reflexivity|]. split; [reflexivity|].
    split; [vm_compute; reflexivity|]. vm_compute. discriminate.
  - eexists. eexists. split; [vm_compute; reflexivity|].
    split; [vm_compute; reflexivity|]. split; [vm_compute; reflexivity|].
    split; [reflexivity|]. vm_compute. reflexivity.
Qed.

(** C4, amended: the filter reads the 32 bytes at the char vector (with
    [BW = 16] the second half is the padding behind it), walks 16 steps
    down one diagonal and its two neighbours, and counts the steps at
    which at least one of the three diagonals has a match; the verdict is
    [TERM] exactly when this count does not exceed [tf]: the matches
    counted need not be adjacent.  The
    filter is consulted only by the fill in which [psum] stops being
    negative: before that the phantom block is never marked [TERM]. *)
Theorem C4_gapless_filter_count (BW : Z) (w : world) (self : gaba_dp_context_s)
    (prev : gaba_joint_tail_s) :
  let r := fill_create_phantom_block BW w self prev in
  let blk := last_blk (jb_blks (snd r)) in
  (32 <= length (blk_ch blk ++ blk_pad blk))%nat ->
  t_psum prev < 0 ->
  fill_gapless_filter (fst r) blk CONT =
    (if k_tf (dp_k self) <? filter_count (blk_ch blk ++ blk_pad blk) then CONT else TERM)
  /\ (0 <= t_psum prev + jb_p (snd r) ->
      jb_stat (snd r) = fill_gapless_filter (fst r) blk CONT)
  /\ (t_psum prev + jb_p (snd r) < 0 ->
      jb_stat (snd r) = CONT \/ jb_stat (snd r) = UPDATE).
Proof.
  intros r blk Hlen Hps.
  assert (Hk : dp_k (fst r) = dp_k self).
  { subst r. destruct (fill_create_phantom_block BW w self prev) as [s j] eqn:E.
    apply fill_create_phantom_block_ok in E. apply E. }
  split.
  - rewrite <- Hk. clearbody blk.
    destruct (blk_ch blk ++ blk_pad blk) as [|x0 l] eqn:E; [cbn in Hlen; lia|].
    do 31 (destruct l as [|? l]; [cbn in Hlen; lia|]).
    eapply gapless_filter_lanes. exact E.
  - subst blk r. unfold fill_create_phantom_block.
    destruct (Z.leb_spec 0 (t_psum prev)); [lia|].
    set (b0 := mk_block _ _ _ _ _ _ _ _ _ _ _ _).
    pose proof (fill_init_fetch_stat BW w self prev b0
                  (_sub_v2i32 (r_alen self, r_blen self) (t_apos prev, t_bpos prev))) as Hs.
    destruct (fill_init_fetch BW w self prev b0 _) as [s1 st]. cbn [snd] in Hs.
    cbv zeta in Hs.
    destruct (Z.leb_spec 0 (t_psum prev + jb_p st)); cbn [fst snd jb_stat jb_p jb_blks].
    + split; [intros _; reflexivity | intros; lia].
    + split; [intros; lia | intros _; exact Hs].
Qed.

Lemma C4_gapless_filter_count_witness :
  let w := unittest_world seq_run_a seq_run_b in
  let r := fill_create_phantom_block 32 w run_self (_ptail run_self) in
  let blk := last_blk (jb_blks (snd r)) in
  ((32 <= length (blk_ch blk ++ blk_pad blk))%nat /\ t_psum (_ptail run_self) < 0)
  /\ fill_gapless_filter (fst r) blk CONT =
       (if k_tf (dp_k run_self) <? filter_count (blk_ch blk ++ blk_pad blk)
        then CONT else TERM)
  /\ (0 <= t_psum (_ptail run_self) + jb_p (snd r) ->
      jb_stat (snd r) = fill_gapless_filter (fst r) blk CONT)
  /\ (t_psum (_ptail run_self) + jb_p (snd r) < 0 ->
      jb_stat (snd r) = CONT \/ jb_stat (snd r) = UPDATE).
Proof.
  cbv zeta.
  assert (H1 : (32 <= length
                 (blk_ch (last_blk (jb_blks (snd (fill_create_phantom_block 32
                    (unittest_world seq_run_a seq_run_b) run_self (_ptail run_self)))))
                  ++ blk_pad (last_blk (jb_blks (snd (fill_create_phantom_block 32
                    (unittest_world seq_run_a seq_run_b) run_self (_ptail run_self)))))))%nat)
    by (vm_compute; repeat constructor).
  assert (H2 : t_psum (_ptail run_self) < 0) by (vm_compute; reflexivity).
  split; [split; assumption|].
  exact (C4_gapless_filter_count 32 (unittest_world seq_run_a seq_run_b) run_self
           (_ptail run_self) H1 H2).
Defined.

(** ** Traceback: the lane check *)








